(** * Remote job execution bridge: [BaseRemoteExecutionProcessor.execute]

    A shallow embedding of [pygeoapi/process/base_remote_execution.py].
    The Python method is written in a small state-and-exception monad over
    a world made of the local file system, the remote executor and a trace
    of the external calls performed. *)

From Stdlib Require Import ZArith String List Ascii DecimalString.
From Stdlib Require Import Floats.SpecFloat.
From stdpp Require Import gmap strings list fin_maps.

Local Open Scope string_scope.
Local Open Scope Z_scope.

(** ** Python values

    What [response.json()] decodes to, and what the adapters exchange with
    the bridge: [None], [bool], [int], [float], [str], [list], [dict].  A
    [dict] keeps its insertion order; a key is looked up from the front. *)

#[warnings="-register-all"]
Inductive value : Type :=
| VNone
| VBool (b : bool)
| VInt (n : Z)
| VFloat (f : spec_float)
| VStr (s : string)
| VList (l : list value)
| VDict (d : list (string * value)).

(** Truth value of an object, as tested by [if x:]. *)
Definition truthy (v : value) : bool :=
  match v with
  | VNone => false
  | VBool b => b
  | VInt n => negb (n =? 0)
  | VFloat (S754_zero _) => false
  | VFloat _ => true
  | VStr s => negb (String.eqb s "")
  | VList l => match l with [] => false | _ => true end
  | VDict d => match d with [] => false | _ => true end
  end.

(** [v != 0]: numbers compare by value ([False == 0], [0.0 == 0]); a value
    of any other type differs from [0]. *)
Definition ne_zero (v : value) : bool :=
  match v with
  | VBool b => b
  | VInt n => negb (n =? 0)
  | VFloat (S754_zero _) => false
  | _ => true
  end.

(** ** HTTP messages (the [requests] library) *)

Inductive request : Type :=
| POST (url : string) (json : value) (headers : list (string * string))
| GET (url : string).

(** A [requests.Response]: its status code and the decoded JSON body,
    [None] when [response.json()] cannot decode the body. *)
Record response : Type := Response {
  status_code : Z;
  body : option value
}.

(** [response.ok]: false exactly for the 4xx and 5xx status codes. *)
Definition ok (r : response) : bool :=
  negb ((400 <=? status_code r) && (status_code r <? 600)).

(** ** Exceptions *)

Definition path : Type := list string.

(** The argument an exception is built with: a Python value (a message
    string, or whatever the body had under ['Message']) or the response
    object itself. *)
Inductive exn_arg : Type :=
| PyVal (v : value)
| PyResponse (r : response).

Inductive exn : Type :=
| ProcessorGenericError (arg : exn_arg)
| ProcessorExecuteError (arg : exn_arg)
| FileExistsError (p : path)
| FileNotFoundError (p : path)
| NotADirectoryError (p : path)
| KeyError (k : string)
| TypeError
| JSONDecodeError
| ValueError
| NotImplementedError
| Foreign (name : string) (is_exception : bool).

(** ** File system

    A path is the list of its components; the root [[]] always exists. *)

Inductive node : Type :=
| Dir
| File (content : string).

Abbreviation fs := (gmap path node).

Definition parent (p : path) : path := take (length p - 1)%nat p.

(** [os.mkdir(p)] *)
Definition mkdir_fs (p : path) (f : fs) : exn + fs :=
  match f !! p with
  | Some _ => inl (FileExistsError p)
  | None =>
      match parent p with
      | [] => inr (<[p := Dir]> f)
      | q =>
          match f !! q with
          | Some Dir => inr (<[p := Dir]> f)
          | Some (File _) => inl (NotADirectoryError p)
          | None => inl (FileNotFoundError p)
          end
      end
  end.

(** [shutil.rmtree(p)] *)
Definition rmtree_fs (p : path) (f : fs) : exn + fs :=
  match f !! p with
  | None => inl (FileNotFoundError p)
  | Some (File _) => inl (NotADirectoryError p)
  | Some Dir => inr (filter (λ kv, ¬ p `prefix_of` kv.1) f)
  end.

(** ** The adapter interface

    [prepare_input] and [prepare_output] are supplied by the specialised
    class; they read and write the file system and either return or
    raise. *)

Definition fs_action (A : Type) : Type := fs → (exn + A) * fs.

Class Adapter : Type := {
  prepare_input : value → path → option value → fs_action value;
  prepare_output : value → path → option value → fs_action (string * value)
}.

(** The base class leaves both methods unimplemented. *)
Definition base_adapter : Adapter := {|
  prepare_input _ _ _ := λ f, (inl NotImplementedError, f);
  prepare_output _ _ _ := λ f, (inl NotImplementedError, f)
|}.

(** ** What the bridge takes from its environment

    The remote executor answers (or the transport raises) and moves to its
    next state; [urljoin] is [urllib.parse.urljoin]; [py_str] is the text an
    f-string puts for a value.  [ProcessorGenericError] and
    [ProcessorExecuteError] are imported from [pygeoapi.process.base]:
    whether [except Exception] catches them is decided there. *)

Class Runtime : Type := {
  remote : Type;
  serve : remote → request → (exn + response) * remote;
  urljoin : string → string → string;
  py_str : value → string;
  processor_error_is_Exception : bool
}.

(** [isinstance(e, Exception)]; every exception is a [BaseException]. *)
Definition is_Exception `{Runtime} (e : exn) : bool :=
  match e with
  | ProcessorGenericError _ | ProcessorExecuteError _ =>
      processor_error_is_Exception
  | Foreign _ b => b
  | _ => true
  end.

Definition is_BaseException (e : exn) : bool := true.

(** The calls that leave the process, in the order they are made. *)
Inductive event : Type :=
| EMkdir (p : path)
| ERmtree (p : path)
| EHttp (rq : request)
| ESleep (t : Z)
| ELogError (msg : string).

Record world `{Runtime} : Type := World {
  files : fs;
  executor : remote;
  trace : list event
}.

(** ** The monad: state, exceptions, and a bound on the poll loop *)

Inductive outcome (A : Type) : Type :=
| Return (a : A)
| Raise (e : exn)
| Spin.
Arguments Return {A} a.
Arguments Raise {A} e.
Arguments Spin {A}.

Definition M `{Runtime} (A : Type) : Type := world → outcome A * world.

Definition ret `{Runtime} {A} (a : A) : M A := λ w, (Return a, w).

Definition raise `{Runtime} {A} (e : exn) : M A := λ w, (Raise e, w).

Definition bind `{Runtime} {A B} (m : M A) (k : A → M B) : M B :=
  λ w, match m w with
       | (Return a, w') => k a w'
       | (Raise e, w') => (Raise e, w')
       | (Spin, w') => (Spin, w')
       end.

Notation "'let*' x ':=' m 'in' k" := (bind m (λ x, k))
  (at level 10, x pattern, m at level 100, k at level 200).

(** [try: body / except C as ex: handler ex] where [catches] tells the
    instances of [C]. *)
Definition try_except `{Runtime} {A} (body : M A) (catches : exn → bool)
    (handler : exn → M A) : M A :=
  λ w, match body w with
       | (Raise e, w') => if catches e then handler e w' else (Raise e, w')
       | r => r
       end.

Definition of_sum `{Runtime} {A} (r : exn + A) : M A :=
  match r with inl e => raise e | inr a => ret a end.

Definition emit `{Runtime} (e : event) : M unit :=
  λ w, (Return tt, World _ (files w) (executor w) (trace w ++ [e])%list).

Definition on_files `{Runtime} {A} (act : fs_action A) : M A :=
  λ w, let '(r, f') := act (files w) in
       of_sum r (World _ f' (executor w) (trace w)).

Definition mkdir `{Runtime} (p : path) : M unit :=
  let* _ := emit (EMkdir p) in
  on_files (λ f, match mkdir_fs p f with
                 | inl e => (inl e, f)
                 | inr f' => (inr tt, f')
                 end).

Definition rmtree `{Runtime} (p : path) : M unit :=
  let* _ := emit (ERmtree p) in
  on_files (λ f, match rmtree_fs p f with
                 | inl e => (inl e, f)
                 | inr f' => (inr tt, f')
                 end).

(** [requests.post] / [requests.get] *)
Definition http `{Runtime} (rq : request) : M response :=
  let* _ := emit (EHttp rq) in
  λ w, let '(r, x') := serve (executor w) rq in
       of_sum r (World _ (files w) x' (trace w)).

(** [time.sleep(t)] *)
Definition sleep `{Runtime} (t : Z) : M unit :=
  if t <? 0 then raise ValueError else emit (ESleep t).

(** [logging.error(msg)] *)
Definition log_error `{Runtime} (msg : string) : M unit := emit (ELogError msg).

(** [response.json()] *)
Definition json_of (r : response) : exn + value :=
  match body r with
  | Some v => inr v
  | None => inl JSONDecodeError
  end.

Fixpoint dict_get (d : list (string * value)) (k : string) : option value :=
  match d with
  | [] => None
  | (k', v) :: d' => if String.eqb k k' then Some v else dict_get d' k
  end.

(** [v[k]] for a string key [k] *)
Definition getitem (v : value) (k : string) : exn + value :=
  match v with
  | VDict d =>
      match dict_get d k with
      | Some x => inr x
      | None => inl (KeyError k)
      end
  | _ => inl TypeError
  end.

Definition get `{Runtime} (v : value) (k : string) : M value :=
  of_sum (getitem v k).

(** [v[k1][k2]] *)
Definition get2 `{Runtime} (v : value) (k1 k2 : string) : M value :=
  let* x := get v k1 in get x k2.

Definition json `{Runtime} (r : response) : M value := of_sum (json_of r).

Definition nl : string := String (ascii_of_nat 10) "".

(** ** The processor object *)

Record processor : Type := Processor {
  private_processor_dir : path;
  url_executor : string;
  polling_time : Z;
  remote_execute_synch : bool;
  job_id : option string
}.

Definition set_job_id (self : processor) (j : string) : processor :=
  Processor (private_processor_dir self) (url_executor self)
    (polling_time self) (remote_execute_synch self) (Some j).

(** The job id when [self.job_id] is truthy: neither [None] nor [''] . *)
Definition bound_job_id (self : processor) : option string :=
  match job_id self with
  | Some j => if String.eqb j "" then None else Some j
  | None => None
  end.

(** [str(self.private_processor_dir / self.job_id)], for a job id that is
    one path component. *)
Definition working_dir_of (self : processor) (j : string) : path :=
  (private_processor_dir self ++ [j])%list.

Definition submission (j : string) (synch : bool) (params : value) : value :=
  VDict [("application_params",
          VDict [("job_id", VStr j); ("synch_execution", VBool synch)]);
         ("code_input_params", params)].

Definition missing_job_id : string :=
  "Missing call to 'set_job_id()' before 'execute()'.".

(** The [while True:] loop of the asynchronous mode; [fuel] bounds the
    number of iterations observed, and [Spin] is the loop still running. *)
Fixpoint poll `{Runtime} (self : processor) (j : string) (fuel : nat)
    : M value :=
  match fuel with
  | O => λ w, (Spin, w)
  | S fuel' =>
      let* _ := sleep (polling_time self) in
      let execute_url := urljoin (url_executor self) ("job_info/" ++ j) in
      let* response := http (GET execute_url) in
      let* _ :=
        if negb (ok response) then
          try_except
            (let* message := (let* b := json response in get b "Message") in
             raise (ProcessorExecuteError (PyVal message)))
            is_Exception
            (λ _, raise (ProcessorExecuteError (PyResponse response)))
        else ret tt in
      let* info := json response in
      let* e := get2 info "job_info" "end_processing" in
      if truthy e then ret info else poll self j fuel'
  end.

(** The check of the exit code and the two messages that follow it. *)
Definition check_exit_code `{Runtime} (info : value) : M unit :=
  let* c := get2 info "job_info" "exit_code" in
  if ne_zero c then
    let* i1 := get info "job_id" in
    let* c1 := get2 info "job_info" "exit_code" in
    let* s1 := get2 info "job_info" "std_err" in
    let error_msg :=
      "The job '" ++ py_str i1 ++ "' exited with code: " ++ py_str c1 ++ nl
      ++ "Error message:" ++ nl ++ py_str s1 in
    let* _ := log_error error_msg in
    let* i2 := get info "job_id" in
    let* c2 := get2 info "job_info" "exit_code" in
    let message :=
      "The job '" ++ py_str i2 ++ "' exited with code " ++ py_str c2 in
    raise (ProcessorExecuteError (PyVal (VStr message)))
  else ret tt.

(** [BaseRemoteExecutionProcessor.execute] *)
Definition execute `{Runtime} `{Adapter} (self : processor) (data : value)
    (outputs : option value) (fuel : nat) : M (string * value) :=
  match bound_job_id self with
  | None => raise (ProcessorGenericError (PyVal (VStr missing_job_id)))
  | Some j =>
      let working_dir := working_dir_of self j in
      let* _ := mkdir working_dir in
      let* code_input_params :=
        try_except
          (on_files (prepare_input data working_dir outputs))
          is_BaseException
          (λ ex, let* _ := rmtree working_dir in raise ex) in
      let execute_url := urljoin (url_executor self) "execute" in
      let headers := [("Content-type", "application/json")] in
      let* response :=
        http (POST execute_url
                (submission j (remote_execute_synch self) code_input_params)
                headers) in
      let* _ :=
        if negb (ok response) then
          try_except
            (let* _ := rmtree working_dir in
             let* message := (let* b := json response in get b "Message") in
             raise (ProcessorExecuteError (PyVal message)))
            is_Exception
            (λ _, raise (ProcessorExecuteError (PyResponse response)))
        else ret tt in
      let* info :=
        if remote_execute_synch self then json response
        else poll self j fuel in
      let* _ := check_exit_code info in
      let* prepared := on_files (prepare_output info working_dir outputs) in
      let '(mimetype, process_outputs) := prepared in
      ret (mimetype, process_outputs)
  end.

(** ** Vocabulary of the statements *)

(** [needle in hay] on strings *)
Definition contains (needle hay : string) : Prop :=
  ∃ pre post, hay = pre ++ needle ++ post.

(** The text raised to the caller when a job fails. *)
Definition job_failure_message `{Runtime} (jid code : value) : string :=
  "The job '" ++ py_str jid ++ "' exited with code " ++ py_str code.

(** The text written to the log when a job fails. *)
Definition job_failure_log `{Runtime} (jid code err : value) : string :=
  "The job '" ++ py_str jid ++ "' exited with code: " ++ py_str code ++ nl
  ++ "Error message:" ++ nl ++ py_str err.

(** [info[k1][k2]] without the monad *)
Definition getitem2 (v : value) (k1 k2 : string) : exn + value :=
  match getitem v k1 with
  | inl e => inl e
  | inr x => getitem x k2
  end.

(** An adapter method that leaves the directory [p] in place, whatever
    else it reads or writes and whether it returns or raises. *)
Definition preserves_dir {A} (act : fs_action A) (p : path) : Prop :=
  ∀ f r f', f !! p = Some Dir → act f = (r, f') → f' !! p = Some Dir.

(** The URL and the body of the two requests [execute] sends. *)
Definition submit_request `{Runtime} (self : processor) (j : string)
    (params : value) : request :=
  POST (urljoin (url_executor self) "execute")
    (submission j (remote_execute_synch self) params)
    [("Content-type", "application/json")].

Definition poll_request `{Runtime} (self : processor) (j : string) : request :=
  GET (urljoin (url_executor self) ("job_info/" ++ j)).

(** A body that reports a job still running: a success response whose
    [job_info.end_processing] is present and falsy. *)
Definition still_running (r : response) : Prop :=
  ok r = true ∧
  ∃ info e, body r = Some info ∧
            getitem2 info "job_info" "end_processing" = inr e ∧
            truthy e = false.

(** From state [x], the executor answers [n] polls with "still running"
    and the next one with [r], ending in state [x']. *)
Fixpoint answers_after `{Runtime} (n : nat) (rq : request) (x : remote)
    (r : response) (x' : remote) : Prop :=
  match n with
  | O => serve x rq = (inr r, x')
  | S n' => ∃ r0 x0, serve x rq = (inr r0, x0) ∧ still_running r0 ∧
                     answers_after n' rq x0 r x'
  end.

(** The [ESleep]/[EHttp] pairs that [n] polls add to the trace. *)
Fixpoint poll_events (n : nat) (t : Z) (rq : request) : list event :=
  match n with
  | O => []
  | S n' => ESleep t :: EHttp rq :: poll_events n' t rq
  end.

(** The file system once [shutil.rmtree(p)] was attempted: without the
    tree when the call succeeds, as it was when the call raises. *)
Definition after_rmtree (p : path) (f : fs) : fs :=
  match rmtree_fs p f with
  | inr f' => f'
  | inl _ => f
  end.

(** The closing statements of [execute], from the check of the exit code
    on, for a terminal job info [info]. *)
Definition conclude `{Runtime} `{Adapter} (working_dir : path)
    (outputs : option value) (info : value) : M (string * value) :=
  let* _ := check_exit_code info in
  let* prepared := on_files (prepare_output info working_dir outputs) in
  let '(mimetype, process_outputs) := prepared in
  ret (mimetype, process_outputs).

(** How [execute] obtains the terminal job info from an accepted
    submission. *)
Definition terminal_info `{Runtime} (self : processor) (j : string)
    (fuel : nat) (r : response) : M value :=
  if remote_execute_synch self then json r else poll self j fuel.

(** ** A scripted executor and a small adapter, for the worked examples *)

(** The executor gives its scripted replies in turn; past the script the
    connection fails. *)
Definition scripted_serve (x : list (exn + response)) (rq : request)
    : (exn + response) * list (exn + response) :=
  match x with
  | [] => (inl (Foreign "ConnectionError" true), [])
  | r :: x' => (r, x')
  end.

(** [str] of [None], of a [bool], of an [int] and of a [str]; the examples
    format no other value. *)
Definition str_simple (v : value) : string :=
  match v with
  | VNone => "None"
  | VBool true => "True"
  | VBool false => "False"
  | VInt n => NilEmpty.string_of_int (Z.to_int n)
  | VStr s => s
  | _ => "<object>"
  end.

(** [urljoin] of a base that ends in [/] with a relative reference. *)
Definition urljoin_dir (base ref : string) : string := base ++ ref.

Definition scripted : Runtime := {|
  remote := list (exn + response);
  serve := scripted_serve;
  urljoin := urljoin_dir;
  py_str := str_simple;
  processor_error_is_Exception := true
|}.

(** An adapter that stages one input file, hands the request on as the
    parameters, and returns the job info as the output.  A request that is
    not a [dict] is refused after the file was staged. *)
Definition staging_adapter : Adapter := {|
  prepare_input data working_dir _ := λ f,
    let f' := <[(working_dir ++ ["input.txt"])%list := File "staged"]> f in
    match data with
    | VDict _ => (inr data, f')
    | _ => (inl (ProcessorExecuteError (PyVal (VStr "bad request"))), f')
    end;
  prepare_output info _ _ := λ f, (inr ("application/json", info), f)
|}.

Definition demo_processor (synch : bool) (j : option string) : processor :=
  Processor ["srv"; "jobs"] "http://executor/" 3 synch j.

Definition demo_files : fs := {[ ["srv"] := Dir; ["srv"; "jobs"] := Dir ]}.

Definition demo_world (script : list (exn + response)) : @world scripted :=
  @World scripted demo_files script [].

Definition demo_job_info (end_processing : value) (exit_code : Z)
    (std_err : string) : value :=
  VDict [("job_id", VStr "abc123");
         ("job_info", VDict [("end_processing", end_processing);
                             ("exit_code", VInt exit_code);
                             ("std_err", VStr std_err)])].

Definition demo_dir : path := ["srv"; "jobs"; "abc123"].

(** The demo file system after [os.mkdir], and after the adapter staged
    its file. *)
Definition demo_made : fs := <[demo_dir := Dir]> demo_files.

Definition demo_staged : fs :=
  <[(demo_dir ++ ["input.txt"])%list := File "staged"]> demo_made.

Definition demo_submit (synch : bool) : request :=
  POST "http://executor/execute" (submission "abc123" synch (VDict []))
    [("Content-type", "application/json")].

Definition demo_poll : request := GET "http://executor/job_info/abc123".

(** Replies of the executor used in the examples. *)
Definition bad_params : response :=
  Response 400 (Some (VDict [("Message", VStr "bad params")])).

Definition accepted : response := Response 200 (Some (VDict [])).

Definition running : response :=
  Response 200 (Some (demo_job_info (VBool false) 0 "")).

Definition unavailable : response := Response 503 None.

Definition succeeded : response :=
  Response 200 (Some (demo_job_info (VBool true) 0 "")).

Definition boom : response :=
  Response 200 (Some (demo_job_info (VBool true) 1 "boom")).

(** A failed job whose body has no [end_processing] at all. *)
Definition boom_unfinished_info : value :=
  VDict [("job_id", VStr "abc123");
         ("job_info", VDict [("exit_code", VInt 2);
                             ("std_err", VStr "boom")])].

Definition boom_unfinished : response := Response 200 (Some boom_unfinished_info).

(** ** Further vocabulary: frames, traces and fuel *)

(** An adapter method that reads and writes below [p] only: every path
    that is not at or below [p] keeps what it held. *)
Definition confined {A} (act : fs_action A) (p : path) : Prop :=
  ∀ f r f', act f = (r, f') → ∀ q, ¬ p `prefix_of` q → f' !! q = f !! q.

(** Two file systems that agree everywhere outside the tree at [p]. *)
Definition same_outside (p : path) (f f' : fs) : Prop :=
  ∀ q, ¬ p `prefix_of` q → f' !! q = f !! q.

(** The worlds whose file systems agree outside the tree at [p]. *)
Definition frame `{Runtime} (p : path) (w w' : world) : Prop :=
  same_outside p (files w) (files w').

(** The computation [m] leaves every world related by [R] to the world it
    ends in, whatever its outcome. *)
Definition keeps `{Runtime} {A} (R : world → world → Prop) (m : M A) : Prop :=
  ∀ w, R w (m w).2.

(** The number of [POST] requests among the events. *)
Fixpoint posts (evs : list event) : nat :=
  match evs with
  | [] => O
  | EHttp (POST _ _ _) :: evs' => S (posts evs')
  | _ :: evs' => posts evs'
  end.

(** The computation [m] adds to the trace only events accepted by [ok_ev],
    at most [n] of them [POST] requests, whatever its outcome. *)
Definition emits `{Runtime} {A} (ok_ev : event → Prop) (n : nat) (m : M A)
    : Prop :=
  ∀ w, ∃ evs, trace (m w).2 = (trace w ++ evs)%list ∧
              Forall ok_ev evs ∧ (posts evs ≤ n)%nat.

(** The external calls [execute] may make for the job [j]: on the working
    directory, to the two URLs of the executor, and, only in asynchronous
    mode, the sleeps and the polls. *)
Definition expected_event `{Runtime} (self : processor) (j : string)
    (e : event) : Prop :=
  match e with
  | EMkdir p | ERmtree p => p = working_dir_of self j
  | EHttp (POST url b h) =>
      ∃ params, POST url b h = submit_request self j params
  | EHttp (GET url) =>
      remote_execute_synch self = false ∧ GET url = poll_request self j
  | ESleep t => remote_execute_synch self = false ∧ t = polling_time self
  | ELogError _ => True
  end.

(** ** The CONDUIT adapter: [ConduitProcessor.prepare_input]

    Of [pygeoapi/process/conduit.py].  The decoded floats are binary64
    numbers in canonical form, which [SFcompare] orders as Python does; a
    [dict] holds each key once. *)

(** The texts Python makes of an exception, [str(err)], and of a set of
    strings joined by [', '], in the order the set happens to iterate. *)
Class Texts : Type := {
  str_exn : exn → string;
  join_set : list string → string
}.

Definition pee (msg : string) : exn :=
  ProcessorExecuteError (PyVal (VStr msg)).

(** The objects a [set] can hold. *)
Definition hashable (v : value) : bool :=
  match v with
  | VList _ | VDict _ => false
  | _ => true
  end.

(** The elements of [set(v)], in the order [v] iterates: the keys of a
    [dict], the items of a [list], the characters of a [str]. *)
Definition py_set (v : value) : exn + list value :=
  match v with
  | VDict d => inr (map (λ kv, VStr kv.1) d)
  | VList l => if forallb hashable l then inr l else inl TypeError
  | VStr s => inr (map (λ c, VStr (String c "")) (list_ascii_of_string s))
  | _ => inl TypeError
  end.

(** [s in names] for an element of a set and a collection of strings *)
Definition one_of (names : list string) (v : value) : bool :=
  match v with
  | VStr s => existsb (String.eqb s) names
  | _ => false
  end.

(** [name in keys] for a string and the elements of a set *)
Definition has_key (keys : list value) (name : string) : bool :=
  existsb (λ v, match v with VStr s => String.eqb s name | _ => false end)
    keys.

Definition is_str (v : value) : bool :=
  match v with VStr _ => true | _ => false end.

Definition str_of (v : value) : string :=
  match v with VStr s => s | _ => "" end.

(** [d[k] = v] on a [dict]: in place for a key that is there, at the end
    for a new one. *)
Fixpoint dict_set (d : list (string * value)) (k : string) (v : value)
    : list (string * value) :=
  match d with
  | [] => [(k, v)]
  | (k', v') :: d' =>
      if String.eqb k k' then (k, v) :: d' else (k', v') :: dict_set d' k v
  end.

(** The keys of [self.metadata['outputs']] in [PROCESS_METADATA]. *)
Definition conduit_outputs : list string :=
  ["grafico_1"; "grafico_2"; "grafico_3"; "csv"].

Definition required_key_set : list string :=
  ["p"; "t"; "d"; "l"; "sio2"; "tio2"; "al2o3"; "fe2o3"; "feo"; "mno";
   "mgo"; "cao"; "na2o"; "k2o"; "h2o"; "co2"; "b"].

Definition optional_key_set : list string := ["c"; "den"].

Definition default_key_set : list string := ["f"].

(** The names tested in the loop, as the loop spells them. *)
Definition positive_names : list string :=
  ["f"; "p"; "t"; "d"; "l"; "b"; "den"].

Definition fraction_names : list string :=
  ["sio2"; "tio2"; "al2o3"; "fe2o3"; "feo"; "mno"; "mgo"; "cao"; "nao2";
   "k2o"; "h20"; "co2"].

(** The float literals [0.0], [1.0], [0.7] and [1.0e8]. *)
Definition f_zero : spec_float := S754_zero false.
Definition f_one : spec_float := S754_finite false 4503599627370496 (-52).
Definition f_0_7 : spec_float := S754_finite false 6305039478318694 (-53).
Definition f_1e8 : spec_float := S754_finite false 6710886400000000 (-26).

Definition in_names (name : string) (names : list string) : bool :=
  existsb (String.eqb name) names.

(** The body of the loop for one parameter, up to the assignment. *)
Definition check_component (name : string) (param_value : value)
    : exn + unit :=
  match param_value with
  | VFloat x =>
      if in_names name positive_names then
        if SFleb x f_zero then
          inl (pee ("Value 'components[" ++ name ++ "]' must be > 0.0."))
        else inr ()
      else if in_names name fraction_names then
        if negb (SFltb f_zero x && SFltb x f_one) then
          inl (pee ("Value 'components[" ++ name
                    ++ "]' must be >0.0 and <1.0."))
        else inr ()
      else if String.eqb name "c" then
        if negb (SFltb f_zero x && SFltb x f_0_7) then
          inl (pee ("Value 'components[" ++ name
                    ++ "]' must be >0.0 and <0.7."))
        else inr ()
      else inr ()
  | _ =>
      inl (pee ("Value 'components[" ++ name
                ++ "]' must be in decimal or scientific notation."))
  end.

(** [for name in components: ...] over the keys [names] of the [dict]
    [d], filling [code_input_param]. *)
Fixpoint component_loop (d : list (string * value)) (names : list string)
    (code_input_param : list (string * value))
    : exn + list (string * value) :=
  match names with
  | [] => inr code_input_param
  | name :: names' =>
      match dict_get d name with
      | None => inl (KeyError name)
      | Some param_value =>
          match check_component name param_value with
          | inl e => inl e
          | inr _ =>
              component_loop d names'
                (dict_set code_input_param ("-" ++ name) param_value)
          end
      end
  end.

(** The statements of [prepare_input] that follow the [try] block, for
    the extracted [components]. *)
Definition conduit_components `{Texts} (components : value) : exn + value :=
  match py_set components with
  | inl e => inl e
  | inr keys_present =>
      if negb (forallb (has_key keys_present) required_key_set) then
        inl (pee "Input does not contains all required parameters.")
      else if existsb (has_key keys_present) optional_key_set
              && negb (forallb (has_key keys_present) optional_key_set) then
        inl (pee "Input does not contains all required parameters.")
      else
        let extra_keys :=
          filter (λ v, one_of (required_key_set ++ optional_key_set
                               ++ default_key_set)%list v = false)
            keys_present in
        match extra_keys with
        | _ :: _ =>
            if forallb is_str extra_keys then
              inl (pee ("Input contains unexpected parameters: "
                        ++ join_set (remove_dups (map str_of extra_keys))
                        ++ "."))
            else inl TypeError
        | [] =>
            match components with
            | VDict d =>
                match component_loop d (map fst d) [] with
                | inl e => inl e
                | inr code_input_param =>
                    inr (VDict
                           (match dict_get code_input_param "-f" with
                            | Some _ => code_input_param
                            | None =>
                                dict_set code_input_param "-f" (VFloat f_1e8)
                            end))
                end
            | _ => inl TypeError
            end
        end
  end.

(** [ConduitProcessor.prepare_input] *)
Definition conduit_prepare_input `{Texts} (data : value) (working_dir : path)
    (outputs : option value) : fs_action value :=
  λ f,
    let unexpected_outputs :=
      match outputs with
      | Some o =>
          if truthy o then
            match py_set o with
            | inl e => inl e
            | inr requested_output =>
                inr (existsb (λ v, negb (one_of conduit_outputs v))
                       requested_output)
            end
          else inr false
      | None => inr false
      end in
    match unexpected_outputs with
    | inl e => (inl e, f)
    | inr true => (inl (pee "Outputs contains unexpected parameters."), f)
    | inr false =>
        match getitem2 data "components" "value" with
        | inl err =>
            (inl (pee ("Input not correctly formatted: " ++ str_exn err
                       ++ "'.")), f)
        | inr components => (conduit_components components, f)
        end
    end.

(** The requests [prepare_input] lets through, for a [dict] of
    components: every required key, the optional keys both or neither, no
    other key than these and [f], and each value a float within the range
    the loop tests for its name. *)
Definition component_ok (name : string) (v : value) : Prop :=
  ∃ x, v = VFloat x ∧
       (in_names name positive_names = true → SFleb x f_zero = false) ∧
       (in_names name fraction_names = true →
        SFltb f_zero x = true ∧ SFltb x f_one = true) ∧
       (name = "c" → SFltb f_zero x = true ∧ SFltb x f_0_7 = true).

Definition components_ok (d : list (string * value)) : Prop :=
  (∀ name, In name required_key_set → In name (map fst d)) ∧
  (In "c" (map fst d) ↔ In "den" (map fst d)) ∧
  (∀ name, In name (map fst d) →
           In name (required_key_set ++ optional_key_set
                    ++ default_key_set)%list) ∧
  (∀ name, In name (map fst d) →
           ∃ v, dict_get d name = Some v ∧ component_ok name v).

(** The components with the values of [na2o] and [h2o] replaced by the
    floats that [g] gives. *)
Definition retouch (g : string → spec_float) (d : list (string * value))
    : list (string * value) :=
  map (λ kv, if in_names kv.1 ["na2o"; "h2o"]
             then (kv.1, VFloat (g kv.1)) else kv) d.

(** The output selections [prepare_input] lets through: none, a falsy
    one, or a collection naming declared outputs only. *)
Definition outputs_ok (outputs : option value) : Prop :=
  match outputs with
  | None => True
  | Some o =>
      truthy o = true →
      ∃ names, py_set o = inr names ∧
               ∀ v, In v names → one_of conduit_outputs v = true
  end.

(** The request given as example in [PROCESS_METADATA], with its floats
    in binary64, and texts for the worked examples: [str] of a [KeyError]
    is the quoted key. *)
Definition example_components : list (string * value) :=
  [("f", VFloat (S754_finite false 6710886400000000 (-26)));
   ("p", VFloat (S754_finite false 6710886400000000 (-26)));
   ("t", VFloat (S754_finite false 4617948836659200 (-42)));
   ("d", VFloat (S754_finite false 8444249301319680 (-47)));
   ("l", VFloat (S754_finite false 8796093022208000 (-41)));
   ("sio2", VFloat (S754_finite false 6907621108460867 (-53)));
   ("tio2", VFloat (S754_finite false 5534023222112865 (-62)));
   ("al2o3", VFloat (S754_finite false 4763006965907037 (-55)));
   ("fe2o3", VFloat (S754_finite false 8992787735933406 (-61)));
   ("feo", VFloat (S754_finite false 8762203435012037 (-61)));
   ("mno", VFloat (S754_finite false 6456360425798343 (-63)));
   ("mgo", VFloat (S754_finite false 5534023222112865 (-63)));
   ("cao", VFloat (S754_finite false 4611686018427388 (-59)));
   ("na2o", VFloat (S754_finite false 8646911284551352 (-58)));
   ("k2o", VFloat (S754_finite false 7378697629483821 (-57)));
   ("h2o", VFloat (S754_finite false 7205759403792794 (-57)));
   ("co2", VFloat (S754_finite false 5764607523034235 (-58)));
   ("b", VFloat (S754_finite false 6553600000000000 (-16)));
   ("c", VFloat (S754_finite false 7205759403792794 (-55)));
   ("den", VFloat (S754_finite false 6157265115545600 (-41)))].

Definition conduit_request (components : value) : value :=
  VDict [("components", VDict [("value", components)])].

Definition example_outputs : option value :=
  Some (VDict [("grafico_1", VDict [("transmissionMode", VStr "value")]);
               ("grafico_2", VDict [("transmissionMode", VStr "value")])]).

Definition plain_texts : Texts := {|
  str_exn e :=
    match e with
    | KeyError k => "'" ++ k ++ "'"
    | _ => "object is not subscriptable"
    end;
  join_set names := String.concat ", " names
|}.

(** [5.0], out of range for a mass fraction. *)
Definition f_five : spec_float := S754_finite false 5629499534213120 (-50).

(** ** The SOLWCAD adapters

    [SolwcadProcessor] of [pygeoapi/process/solwcad.py] declares
    [prepare_input(self, data, working_dir)] and
    [prepare_output(self, info, working_dir)]; [execute] calls both with
    three arguments, so the call itself raises [TypeError] before any
    statement of the method runs. *)
Definition solwcad_adapter : Adapter := {|
  prepare_input _ _ _ := λ f, (inl TypeError, f);
  prepare_output _ _ _ := λ f, (inl TypeError, f)
|}.

(** The items of [for item in v]. *)
Definition py_iter (v : value) : exn + list value :=
  match v with
  | VDict d => inr (map (λ kv, VStr kv.1) d)
  | VList l => inr l
  | VStr s => inr (map (λ c, VStr (String c "")) (list_ascii_of_string s))
  | _ => inl TypeError
  end.

(** [for item in items: sw.append(item['value'])] *)
Fixpoint collect_values (items : list value) : exn + list value :=
  match items with
  | [] => inr []
  | item :: items' =>
      match getitem item "value" with
      | inl e => inl e
      | inr v =>
          match collect_values items' with
          | inl e => inl e
          | inr sw => inr (v :: sw)
          end
      end
  end.

Definition name_error : exn := Foreign "NameError" true.

(** [SolwcadProcessor_New.prepare_input] of
    [pygeoapi/process/solwcad_new.py]: after the [try] block the method
    reads [swinput], a name bound nowhere in the module. *)
Definition solwcad_new_prepare_input `{Texts} (data : value)
    (working_dir : path) (outputs : option value) : fs_action value :=
  λ f,
    let parsed :=
      match getitem2 data "elaboration_type" "value" with
      | inl e => inl e
      | inr elaboration_type =>
          match getitem data "sw.data" with
          | inl e => inl e
          | inr items =>
              match py_iter items with
              | inl e => inl e
              | inr l => collect_values l
              end
          end
      end in
    match parsed with
    | inl err =>
        (inl (pee ("Input not correctly formatted: " ++ str_exn err
                   ++ "'.")), f)
    | inr sw => (inl name_error, f)
    end.

(** ** [BaseRemoteExecutionProcessor.__init__]

    The initialiser of the base class [BaseProcessor] and the reading of
    a path string by [os] and [pathlib] are taken from the host. *)
Class Host : Type := {
  base_init : list (string * value) → exn + unit;
  to_path : string → path
}.

(** The attributes [__init__] sets, as Python values; [job_id] is
    [None]. *)
Record attributes : Type := Attributes {
  attr_private_processor_dir : path;
  attr_url_executor : value;
  attr_polling_time : value;
  attr_remote_execute_synch : value
}.

(** [d[k]] and [d.get(k, default)] on a [dict] *)
Definition dict_item (d : list (string * value)) (k : string) : exn + value :=
  match dict_get d k with
  | Some v => inr v
  | None => inl (KeyError k)
  end.

Definition dict_get_default (d : list (string * value)) (k : string)
    (default : value) : value :=
  match dict_get d k with
  | Some v => v
  | None => default
  end.

Definition is_FileExistsError (e : exn) : bool :=
  match e with FileExistsError _ => true | _ => false end.

Definition undefined_dir : string :=
  "Undefined 'private_processor_dir' in configuration.".

Definition undefined_url : string :=
  "Undefined 'url_executor' in configuration.".

Definition init `{Runtime} `{Host} (processor_def : list (string * value))
    : M attributes :=
  let* _ := of_sum (base_init processor_def) in
  let* private_processor_dir :=
    of_sum (dict_item processor_def "private_processor_dir") in
  let* url_executor := of_sum (dict_item processor_def "url_executor") in
  match private_processor_dir with
  | VNone => raise (ProcessorGenericError (PyVal (VStr undefined_dir)))
  | _ =>
      let* _ :=
        try_except
          (match private_processor_dir with
           | VStr s => mkdir (to_path s)
           | _ => raise TypeError
           end)
          is_FileExistsError
          (λ _, ret ()) in
      match url_executor with
      | VNone => raise (ProcessorGenericError (PyVal (VStr undefined_url)))
      | _ =>
          ret (Attributes
                 (to_path (str_of private_processor_dir))
                 url_executor
                 (dict_get_default processor_def "polling_time" (VInt 3))
                 (dict_get_default processor_def "remote_execute_synch"
                    (VBool true)))
      end
  end.

(** The processor object of the attributes, when the configured values
    have the types the rest of the class uses them at. *)
Definition processor_of (a : attributes) : option processor :=
  match attr_url_executor a, attr_polling_time a,
        attr_remote_execute_synch a with
  | VStr url, VInt t, VBool synch =>
      Some (Processor (attr_private_processor_dir a) url t synch None)
  | _, _, _ => None
  end.

(** A host for the examples: paths are split at [/]. *)
Fixpoint split_path (s : string) (cur : string) : path :=
  match s with
  | EmptyString => match cur with EmptyString => [] | _ => [cur] end
  | String c s' =>
      if Ascii.eqb c "/"%char then
        match cur with
        | EmptyString => split_path s' ""
        | _ => cur :: split_path s' ""
        end
      else split_path s' (cur ++ String c "")
  end.

Definition demo_host : Host := {|
  base_init _ := inr ();
  to_path s := split_path s ""
|}.

(** ** More adapters and worlds for the worked examples *)

(** An adapter whose [prepare_input] removes the working directory it was
    given and then fails. *)
Definition careless_adapter : Adapter := {|
  prepare_input _ working_dir _ := λ f,
    (inl ValueError, delete working_dir f);
  prepare_output info _ _ := λ f, (inr ("application/json", info), f)
|}.

(** A subclass that overrides [prepare_input] only. *)
Definition half_adapter : Adapter := {|
  prepare_input data _ _ := λ f, (inr data, f);
  prepare_output _ _ _ := λ f, (inl NotImplementedError, f)
|}.

(** CONDUIT's and the new SOLWCAD's [prepare_input], with the
    [prepare_output] of the base class. *)
Definition conduit_input_only : Adapter := {|
  prepare_input := @conduit_prepare_input plain_texts;
  prepare_output _ _ _ := λ f, (inl NotImplementedError, f)
|}.

Definition solwcad_new_input_only : Adapter := {|
  prepare_input := @solwcad_new_prepare_input plain_texts;
  prepare_output _ _ _ := λ f, (inl NotImplementedError, f)
|}.

Definition connection_error : exn := Foreign "ConnectionError" true.

(** A failed job whose info has no [std_err]. *)
Definition silent_failure_info : value :=
  VDict [("job_id", VStr "abc123");
         ("job_info", VDict [("exit_code", VInt 1)])].

Definition impatient_processor : processor :=
  Processor ["srv"; "jobs"] "http://executor/" (-1) false (Some "abc123").

Definition demo_config (dir url : value) : list (string * value) :=
  [("name", VStr "conduit"); ("private_processor_dir", dir);
   ("url_executor", url); ("remote_execute_synch", VBool false)].

Arguments working_dir_of : simpl never.
Arguments submission : simpl never.

(** * Properties *)

(** ** The file system operations *)

Lemma mkdir_fs_exists (p : path) (f : fs) (n : node) :
  f !! p = Some n → mkdir_fs p f = inl (FileExistsError p).
Proof. intros E. unfold mkdir_fs. by rewrite E. Qed.

Lemma mkdir_fs_created (p : path) (f f' : fs) :
  mkdir_fs p f = inr f' → f !! p = None ∧ f' = <[p := Dir]> f.
Proof.
  unfold mkdir_fs. destruct (f !! p) eqn:E; [done|].
  destruct (parent p); [by intros; simplify_eq|].
  destruct (f !! (_ :: _)) as [[]|]; by intros; simplify_eq.
Qed.

Lemma rmtree_fs_removed (p : path) (f f' : fs) :
  rmtree_fs p f = inr f' →
  f !! p = Some Dir ∧
  (∀ q, p `prefix_of` q → f' !! q = None) ∧
  (∀ q, ¬ p `prefix_of` q → f' !! q = f !! q).
Proof.
  unfold rmtree_fs. destruct (f !! p) as [[]|] eqn:E; try done.
  intros ?; simplify_eq. split; [done|]. split; intros q Hq.
  - apply map_lookup_filter_None. right. intros n _. simpl. tauto.
  - destruct (f !! q) eqn:Eq.
    + apply map_lookup_filter_Some. done.
    + apply map_lookup_filter_None. by left.
Qed.

Lemma rmtree_fs_failed (p : path) (f : fs) (e : exn) :
  rmtree_fs p f = inl e →
  f !! p ≠ Some Dir ∧ (e = FileNotFoundError p ∨ e = NotADirectoryError p).
Proof.
  unfold rmtree_fs. destruct (f !! p) as [[]|]; intros; simplify_eq; auto.
Qed.

Lemma after_rmtree_no_dir (p : path) (f : fs) :
  after_rmtree p f !! p ≠ Some Dir.
Proof.
  unfold after_rmtree. destruct (rmtree_fs p f) eqn:E.
  - by apply rmtree_fs_failed in E as [? _].
  - apply rmtree_fs_removed in E as (_ & H & _). by rewrite H.
Qed.

Lemma after_rmtree_gone (p : path) (f : fs) :
  f !! p = Some Dir → ∀ q, p `prefix_of` q → after_rmtree p f !! q = None.
Proof.
  intros Hd q Hq. unfold after_rmtree. destruct (rmtree_fs p f) eqn:E.
  - apply rmtree_fs_failed in E as [? _]. done.
  - apply rmtree_fs_removed in E as (_ & H & _). auto.
Qed.

Lemma after_rmtree_elsewhere (p : path) (f : fs) :
  ∀ q, ¬ p `prefix_of` q → after_rmtree p f !! q = f !! q.
Proof.
  intros q Hq. unfold after_rmtree. destruct (rmtree_fs p f) eqn:E; [done|].
  apply rmtree_fs_removed in E as (_ & _ & H). auto.
Qed.

(** ** Stepping through the monad *)

Section Steps.
Context `{rt : Runtime}.

Lemma bind_Return {A B} (m : M A) (k : A → M B) w a w' :
  m w = (Return a, w') → bind m k w = k a w'.
Proof. intros E. unfold bind. by rewrite E. Qed.

Lemma bind_Raise {A B} (m : M A) (k : A → M B) w e w' :
  m w = (Raise e, w') → bind m k w = (Raise e, w').
Proof. intros E. unfold bind. by rewrite E. Qed.

Lemma bind_Spin {A B} (m : M A) (k : A → M B) w w' :
  m w = (Spin, w') → bind m k w = (Spin, w').
Proof. intros E. unfold bind. by rewrite E. Qed.

Lemma try_Return {A} (m : M A) c h w a w' :
  m w = (Return a, w') → try_except m c h w = (Return a, w').
Proof. intros E. unfold try_except. by rewrite E. Qed.

Lemma try_caught {A} (m : M A) c h w e w' :
  m w = (Raise e, w') → c e = true → try_except m c h w = h e w'.
Proof. intros E C. unfold try_except. by rewrite E, C. Qed.

Lemma try_passed {A} (m : M A) c h w e w' :
  m w = (Raise e, w') → c e = false → try_except m c h w = (Raise e, w').
Proof. intros E C. unfold try_except. by rewrite E, C. Qed.

Lemma mkdir_done p w f' :
  mkdir_fs p (files w) = inr f' →
  mkdir p w = (Return (), World _ f' (executor w) (trace w ++ [EMkdir p])).
Proof. intros E. unfold mkdir, bind, emit, on_files. cbn. by rewrite E. Qed.

Lemma mkdir_raised p w e :
  mkdir_fs p (files w) = inl e →
  mkdir p w
  = (Raise e, World _ (files w) (executor w) (trace w ++ [EMkdir p])).
Proof. intros E. unfold mkdir, bind, emit, on_files. cbn. by rewrite E. Qed.

Lemma rmtree_result p w :
  ∃ o, rmtree p w
       = (o, World _ (after_rmtree p (files w)) (executor w)
               (trace w ++ [ERmtree p]))
       ∧ match o with
         | Return _ => True
         | Raise e => is_Exception e = true
         | Spin => False
         end.
Proof.
  unfold rmtree, bind, emit, on_files, after_rmtree. cbn.
  destruct (rmtree_fs p (files w)) as [e|f'] eqn:E; cbn.
  - exists (Raise e). split; [done|].
    apply rmtree_fs_failed in E as [_ [-> | ->]]; done.
  - by exists (Return ()).
Qed.

Lemma rmtree_done p w :
  files w !! p = Some Dir →
  rmtree p w
  = (Return (), World _ (after_rmtree p (files w)) (executor w)
                  (trace w ++ [ERmtree p])).
Proof.
  intros E. unfold rmtree, bind, emit, on_files, after_rmtree, rmtree_fs.
  cbn. by rewrite E.
Qed.

Lemma http_answered rq w r x' :
  serve (executor w) rq = (inr r, x') →
  http rq w = (Return r, World _ (files w) x' (trace w ++ [EHttp rq])).
Proof. intros E. unfold http, bind, emit. cbn. by rewrite E. Qed.

Lemma on_files_returned {A} (act : fs_action A) w a f' :
  act (files w) = (inr a, f') →
  on_files act w = (Return a, World _ f' (executor w) (trace w)).
Proof. intros E. unfold on_files. by rewrite E. Qed.

Lemma on_files_raised {A} (act : fs_action A) w e f' :
  act (files w) = (inl e, f') →
  on_files act w = (Raise e, World _ f' (executor w) (trace w)).
Proof. intros E. unfold on_files. by rewrite E. Qed.

Lemma get2_eq v k1 k2 w :
  get2 v k1 k2 w
  = match getitem2 v k1 k2 with
    | inl e => (Raise e, w)
    | inr x => (Return x, w)
    end.
Proof.
  unfold get2, get, getitem2, bind, of_sum.
  destruct (getitem v k1); cbn; [done|]. by destruct (getitem _ k2).
Qed.

Lemma get_eq v k w :
  get v k w
  = match getitem v k with
    | inl e => (Raise e, w)
    | inr x => (Return x, w)
    end.
Proof. unfold get, of_sum. by destruct (getitem v k). Qed.

Lemma json_eq r w :
  json r w
  = match body r with
    | Some v => (Return v, w)
    | None => (Raise JSONDecodeError, w)
    end.
Proof. unfold json, json_of, of_sum. by destruct (body r). Qed.

(** The [try]/[except Exception] around the extraction of ['Message']:
    it raises a [ProcessorExecuteError] whatever the body holds, and the
    error carries the response object as soon as [except Exception]
    catches the processor errors. *)
Lemma message_block r w :
  ∃ a, try_except
         (let* message := (let* b := json r in get b "Message") in
          raise (ProcessorExecuteError (PyVal message)))
         is_Exception
         (λ _, raise (ProcessorExecuteError (PyResponse r))) w
       = (@Raise unit (ProcessorExecuteError a), w)
       ∧ (processor_error_is_Exception = true → a = PyResponse r).
Proof.
  unfold try_except, bind. rewrite json_eq.
  destruct (body r) as [b|]; cbn; [|by eexists].
  rewrite get_eq. destruct (getitem b "Message") as [e|m] eqn:E; cbn.
  - assert (is_Exception e = true) as ->; [|by eexists].
    unfold getitem in E. destruct b; simplify_eq; try done.
    destruct (dict_get d "Message"); by simplify_eq.
  - unfold raise. destruct processor_error_is_Exception; cbn; eexists; done.
Qed.

(** The same block when it starts by removing the working directory. *)
Lemma rejection_block p r w :
  ∃ a, try_except
         (let* _ := rmtree p in
          let* message := (let* b := json r in get b "Message") in
          raise (ProcessorExecuteError (PyVal message)))
         is_Exception
         (λ _, raise (ProcessorExecuteError (PyResponse r))) w
       = (@Raise unit (ProcessorExecuteError a),
          World _ (after_rmtree p (files w)) (executor w)
            (trace w ++ [ERmtree p]))
       ∧ (processor_error_is_Exception = true → a = PyResponse r).
Proof.
  destruct (rmtree_result p w) as (o & E & Ho).
  unfold try_except at 1. unfold bind at 1. rewrite E.
  destruct o as [[]|e|]; [|rewrite Ho; by eexists|done].
  set (w' := World _ _ _ _).
  destruct (message_block r w') as (a & Ea & Ha).
  unfold try_except in Ea. exists a. split; [|done].
  destruct (bind _ _ w') as [[?|?|] ?]; done.
Qed.
End Steps.

(** ** The stages of [execute] *)

Section Stages.
Context `{rt : Runtime} `{ad : Adapter}.
Variables (self : processor) (data : value) (outputs : option value).
Variables (fuel : nat) (w : world) (j : string).

Local Abbreviation wd := (working_dir_of self j).

Lemma execute_unbound :
  bound_job_id self = None →
  execute self data outputs fuel w
  = (Raise (ProcessorGenericError (PyVal (VStr missing_job_id))), w).
Proof. intros E. unfold execute. by rewrite E. Qed.

Hypothesis Hjob : bound_job_id self = Some j.

Lemma execute_mkdir_raised e :
  mkdir_fs wd (files w) = inl e →
  execute self data outputs fuel w
  = (Raise e, World _ (files w) (executor w) (trace w ++ [EMkdir wd])).
Proof.
  intros E. unfold execute. rewrite Hjob.
  by rewrite (bind_Raise _ _ _ _ _ (mkdir_raised _ _ _ E)).
Qed.

Variable f1 : fs.
Hypothesis Hmk : mkdir_fs wd (files w) = inr f1.

Lemma execute_input_raised e f2 :
  prepare_input data wd outputs f1 = (inl e, f2) →
  ∃ o, execute self data outputs fuel w
       = (o, World _ (after_rmtree wd f2) (executor w)
               (trace w ++ [EMkdir wd; ERmtree wd]))
       ∧ (f2 !! wd = Some Dir → o = Raise e).
Proof.
  intros E. unfold execute. rewrite Hjob.
  rewrite (bind_Return _ _ _ _ _ (mkdir_done _ _ _ Hmk)).
  set (w1 := World _ f1 _ _).
  assert (on_files (prepare_input data wd outputs) w1
          = (Raise e, World _ f2 (executor w) (trace w ++ [EMkdir wd])))
    as E1 by exact (on_files_raised _ w1 _ _ E).
  set (w2 := World _ f2 _ _) in E1.
  destruct (rmtree_result wd w2) as (o & Er & Ho).
  assert (World _ (after_rmtree wd (files w2)) (executor w2)
            (trace w2 ++ [ERmtree wd])
          = World _ (after_rmtree wd f2) (executor w)
              (trace w ++ [EMkdir wd; ERmtree wd])) as Ew
    by (subst w2; cbn [files executor trace]; by rewrite <- app_assoc).
  rewrite Ew in Er. clear Ew.
  destruct o as [[]|e'|]; [|exists (Raise e')|done].
  - exists (Raise e). split; [|done].
    apply bind_Raise. rewrite (try_caught _ _ _ _ _ _ E1 eq_refl).
    by rewrite (bind_Return _ _ _ _ _ Er).
  - split.
    + apply bind_Raise. rewrite (try_caught _ _ _ _ _ _ E1 eq_refl).
      by rewrite (bind_Raise _ _ _ _ _ Er).
    + intros Hd. pose proof (rmtree_done wd w2 Hd) as Er'.
      rewrite Er in Er'. done.
Qed.

Variables (params : value) (f2 : fs) (r : response) (x1 : remote).
Hypothesis Hin : prepare_input data wd outputs f1 = (inr params, f2).
Hypothesis Hpost :
  serve (executor w) (submit_request self j params) = (inr r, x1).

(** The world once the submission was answered. *)
Local Abbreviation submitted :=
  (World _ f2 x1 (trace w ++ [EMkdir wd; EHttp (submit_request self j params)])).

Lemma execute_submitted :
  execute self data outputs fuel w
  = (let* _ :=
       if negb (ok r) then
         try_except
           (let* _ := rmtree wd in
            let* message := (let* b := json r in get b "Message") in
            raise (ProcessorExecuteError (PyVal message)))
           is_Exception
           (λ _, raise (ProcessorExecuteError (PyResponse r)))
       else ret () in
     let* info := terminal_info self j fuel r in
     conclude wd outputs info) submitted.
Proof.
  unfold execute. rewrite Hjob.
  rewrite (bind_Return _ _ _ _ _ (mkdir_done _ _ _ Hmk)).
  set (w1 := World _ f1 _ _).
  pose proof (on_files_returned _ w1 _ _ Hin) as E1.
  rewrite (bind_Return _ _ _ _ _ (try_Return _ _ _ _ _ _ E1)).
  subst w1. cbn [files executor trace].
  set (w2 := World _ f2 _ _).
  pose proof (http_answered _ w2 _ _ Hpost) as E2.
  unfold submit_request in E2 at 1.
  rewrite (bind_Return _ _ _ _ _ E2).
  subst w2. cbn [files executor trace]. rewrite <- app_assoc. done.
Qed.

Lemma execute_rejected :
  ok r = false →
  ∃ a, execute self data outputs fuel w
       = (Raise (ProcessorExecuteError a),
          World _ (after_rmtree wd f2) x1
            (trace w ++ [EMkdir wd; EHttp (submit_request self j params);
                         ERmtree wd]))
       ∧ (processor_error_is_Exception = true → a = PyResponse r).
Proof.
  intros Hok. rewrite execute_submitted, Hok. cbn [negb].
  destruct (rejection_block wd r submitted) as (a & E & Ha).
  exists a. split; [|done].
  rewrite (bind_Raise _ _ _ _ _ E). cbn [files executor trace].
  by rewrite <- app_assoc.
Qed.

Lemma execute_accepted :
  ok r = true →
  execute self data outputs fuel w
  = (let* info := terminal_info self j fuel r in
     conclude wd outputs info) submitted.
Proof. intros Hok. rewrite execute_submitted, Hok. done. Qed.
End Stages.

(** ** The exit code and the closing statements *)

Section Conclude.
Context `{rt : Runtime} `{ad : Adapter}.
Variables (info : value) (w : world).

Lemma check_passed c :
  getitem2 info "job_info" "exit_code" = inr c → ne_zero c = false →
  check_exit_code info w = (Return (), w).
Proof.
  intros Ec Hc. unfold check_exit_code, bind. by rewrite get2_eq, Ec, Hc.
Qed.

Lemma check_failed c i s :
  getitem2 info "job_info" "exit_code" = inr c → ne_zero c = true →
  getitem info "job_id" = inr i →
  getitem2 info "job_info" "std_err" = inr s →
  check_exit_code info w
  = (Raise (ProcessorExecuteError (PyVal (VStr (job_failure_message i c)))),
     World _ (files w) (executor w)
       (trace w ++ [ELogError (job_failure_log i c s)])).
Proof.
  intros Ec Hc Ei Es. unfold check_exit_code, bind.
  rewrite get2_eq, Ec, Hc, get_eq, Ei, get2_eq, Ec, get2_eq, Es.
  unfold log_error, emit. by rewrite get_eq, Ei, get2_eq, Ec.
Qed.

Lemma check_never_passes c :
  getitem2 info "job_info" "exit_code" = inr c → ne_zero c = true →
  ∃ e w', check_exit_code info w = (Raise e, w') ∧
          files w' = files w ∧ executor w' = executor w.
Proof.
  intros Ec Hc.
  destruct (getitem info "job_id") as [e|i] eqn:Ei.
  { exists e, w. unfold check_exit_code, bind.
    by rewrite get2_eq, Ec, Hc, get_eq, Ei. }
  destruct (getitem2 info "job_info" "std_err") as [e|s] eqn:Es.
  { exists e, w. unfold check_exit_code, bind.
    by rewrite get2_eq, Ec, Hc, get_eq, Ei, get2_eq, Ec, get2_eq, Es. }
  eexists _, _. split; [by apply check_failed|done].
Qed.

Variables (working_dir : path) (outputs : option value).

Lemma conclude_failed e w' :
  check_exit_code info w = (Raise e, w') →
  conclude working_dir outputs info w = (Raise e, w').
Proof. intros E. unfold conclude. by apply bind_Raise. Qed.

Lemma conclude_passed c res f3 :
  getitem2 info "job_info" "exit_code" = inr c → ne_zero c = false →
  prepare_output info working_dir outputs (files w) = (inr res, f3) →
  conclude working_dir outputs info w
  = (Return res, World _ f3 (executor w) (trace w)).
Proof.
  intros Ec Hc Eo. unfold conclude.
  rewrite (bind_Return _ _ _ _ _ (check_passed _ Ec Hc)).
  rewrite (bind_Return _ _ _ _ _ (on_files_returned _ _ _ _ Eo)).
  by destruct res.
Qed.
End Conclude.

(** ** The poll loop *)

Section Poll.
Context `{rt : Runtime}.
Variables (self : processor) (j : string).

Local Abbreviation rq := (poll_request self j).
Local Abbreviation t := (polling_time self).

Lemma sleep_done w :
  0 ≤ t → sleep t w
          = (Return (), World _ (files w) (executor w) (trace w ++ [ESleep t])).
Proof.
  intros Ht. unfold sleep. by destruct (Z.ltb_spec t 0); [lia|].
Qed.

(** One turn of the loop, up to the answer of the executor. *)
Lemma poll_turn fuel w r x' :
  0 ≤ t → serve (executor w) rq = (inr r, x') →
  poll self j (S fuel) w
  = (let* _ :=
       if negb (ok r) then
         try_except
           (let* message := (let* b := json r in get b "Message") in
            raise (ProcessorExecuteError (PyVal message)))
           is_Exception
           (λ _, raise (ProcessorExecuteError (PyResponse r)))
       else ret () in
     let* info := json r in
     let* e := get2 info "job_info" "end_processing" in
     if truthy e then ret info else poll self j fuel)
      (World _ (files w) x' (trace w ++ [ESleep t; EHttp rq])).
Proof.
  intros Ht Es. cbn [poll].
  rewrite (bind_Return _ _ _ _ _ (sleep_done _ Ht)).
  set (w1 := World _ _ _ _).
  pose proof (http_answered rq w1 _ _ Es) as E.
  unfold poll_request in E at 1. rewrite (bind_Return _ _ _ _ _ E).
  subst w1. cbn [files executor trace]. by rewrite <- app_assoc.
Qed.

Lemma poll_running fuel w r x' :
  0 ≤ t → serve (executor w) rq = (inr r, x') → still_running r →
  poll self j (S fuel) w
  = poll self j fuel (World _ (files w) x' (trace w ++ [ESleep t; EHttp rq])).
Proof.
  intros Ht Es (Hok & info & e & Eb & Ee & He).
  rewrite (poll_turn _ _ _ _ Ht Es), Hok. cbn [negb].
  unfold bind at 1, ret at 1. unfold bind at 1. rewrite json_eq, Eb.
  unfold bind at 1. by rewrite get2_eq, Ee, He.
Qed.

Lemma poll_ended fuel w r x' info e :
  0 ≤ t → serve (executor w) rq = (inr r, x') →
  ok r = true → body r = Some info →
  getitem2 info "job_info" "end_processing" = inr e → truthy e = true →
  poll self j (S fuel) w
  = (Return info,
     World _ (files w) x' (trace w ++ [ESleep t; EHttp rq])).
Proof.
  intros Ht Es Hok Eb Ee He.
  rewrite (poll_turn _ _ _ _ Ht Es), Hok. cbn [negb].
  unfold bind at 1, ret at 1. unfold bind at 1. rewrite json_eq, Eb.
  unfold bind at 1. by rewrite get2_eq, Ee, He.
Qed.

Lemma poll_failed fuel w r x' :
  0 ≤ t → serve (executor w) rq = (inr r, x') → ok r = false →
  ∃ a, poll self j (S fuel) w
       = (Raise (ProcessorExecuteError a),
          World _ (files w) x' (trace w ++ [ESleep t; EHttp rq]))
       ∧ (processor_error_is_Exception = true → a = PyResponse r).
Proof.
  intros Ht Es Hok. rewrite (poll_turn _ _ _ _ Ht Es), Hok. cbn [negb].
  set (w1 := World _ _ _ _).
  destruct (message_block r w1) as (a & E & Ha).
  exists a. split; [|done]. by apply bind_Raise.
Qed.

(** What one turn of the loop can do, whatever the executor answers. *)
Lemma poll_cases fuel w :
  (∃ e w', poll self j (S fuel) w = (Raise e, w') ∧ files w' = files w) ∨
  (∃ info w' e, poll self j (S fuel) w = (Return info, w') ∧
                files w' = files w ∧
                getitem2 info "job_info" "end_processing" = inr e ∧
                truthy e = true) ∨
  (∃ w', poll self j (S fuel) w = poll self j fuel w' ∧
         files w' = files w).
Proof.
  destruct (Z.ltb_spec t 0) as [Ht|Ht].
  { left. exists ValueError, w. split; [|done]. cbn [poll].
    apply bind_Raise. unfold sleep.
    by destruct (Z.ltb_spec t 0); [|lia]. }
  destruct (serve (executor w) rq) as [[e|r] x'] eqn:Es.
  { left. eexists e, _. split.
    - cbn [poll]. rewrite (bind_Return _ _ _ _ _ (sleep_done _ Ht)).
      apply bind_Raise. unfold http. unfold poll_request in Es.
      unfold bind at 1, emit at 1. cbn [files executor trace].
      rewrite Es. unfold of_sum, raise. reflexivity.
    - done. }
  destruct (ok r) eqn:Hok.
  2:{ left. destruct (poll_failed fuel w r x' Ht Es Hok) as (a & E & _).
      eexists _, _. split; [exact E|done]. }
  set (w1 := World _ (files w) x' (trace w ++ [ESleep t; EHttp rq])).
  assert (poll self j (S fuel) w
          = match body r with
            | None => (Raise JSONDecodeError, w1)
            | Some info =>
                match getitem2 info "job_info" "end_processing" with
                | inl e => (Raise e, w1)
                | inr e => if truthy e then (Return info, w1)
                           else poll self j fuel w1
                end
            end) as E.
  { rewrite (poll_turn _ _ _ _ Ht Es), Hok. cbn [negb]. fold w1.
    unfold bind at 1, ret at 1. unfold bind at 1. rewrite json_eq.
    destruct (body r) as [info|]; [|done].
    unfold bind at 1. rewrite get2_eq.
    destruct (getitem2 info "job_info" "end_processing") as [|e]; [done|].
    by destruct (truthy e). }
  rewrite E. destruct (body r) as [info|].
  2:{ left. by eexists _, _. }
  destruct (getitem2 info "job_info" "end_processing") as [e|e] eqn:Ee.
  { left. by eexists _, _. }
  destruct (truthy e) eqn:He.
  - right. left. by eexists _, _, e.
  - right. right. by eexists.
Qed.

(** The loop never touches the file system. *)
Lemma poll_files fuel : ∀ w, files (poll self j fuel w).2 = files w.
Proof.
  induction fuel as [|fuel IH]; intros w; [done|].
  destruct (poll_cases fuel w)
    as [(e & w' & -> & Hf)|[(i & w' & e & -> & Hf & _)|(w' & -> & Hf)]];
    [done|done|].
  by rewrite IH.
Qed.

(** The loop returns only a job info whose [end_processing] is truthy. *)
Lemma poll_returns_ended fuel : ∀ w info w',
  poll self j fuel w = (Return info, w') →
  ∃ e, getitem2 info "job_info" "end_processing" = inr e ∧ truthy e = true.
Proof.
  induction fuel as [|fuel IH]; intros w info w' E; [done|].
  destruct (poll_cases fuel w)
    as [(e & w1 & E1 & _)|[(i & w1 & e & E1 & _ & Ee & He)|(w1 & E1 & _)]];
    rewrite E1 in E.
  - done.
  - simplify_eq. eauto.
  - eauto.
Qed.

(** After [n] answers "still running" the loop is where it started, [n]
    polls later. *)
Lemma poll_answers n r x' f : ∀ x tr k,
  0 ≤ t → answers_after n rq x r x' →
  ∃ x0, serve x0 rq = (inr r, x') ∧
        poll self j (n + S k) (World _ f x tr)
        = poll self j (S k) (World _ f x0 (tr ++ poll_events n t rq)).
Proof.
  induction n as [|n IH]; intros x tr k Ht Ha.
  - exists x. cbn [poll_events]. by rewrite app_nil_r.
  - destruct Ha as (r0 & x0 & Es & Hr & Ha).
    destruct (IH x0 (tr ++ [ESleep t; EHttp rq])%list k Ht Ha) as (x1 & E1 & E2).
    exists x1. split; [done|].
    change (S n + S k)%nat with (S (n + S k)).
    rewrite (poll_running _ (World _ f x tr) r0 x0 Ht Es Hr).
    cbn [files executor trace]. rewrite E2.
    cbn [poll_events]. by rewrite <- app_assoc.
Qed.

(** While every answer is "still running" the loop goes on. *)
Lemma poll_spins n r x' f : ∀ x tr fuel,
  0 ≤ t → answers_after n rq x r x' → still_running r →
  (fuel ≤ S n)%nat → (poll self j fuel (World _ f x tr)).1 = Spin.
Proof.
  induction n as [|n IH]; intros x tr fuel Ht Ha Hr Hfuel.
  - destruct fuel as [|[|fuel]]; [done| |lia].
    by rewrite (poll_running _ (World _ f x tr) r x' Ht Ha Hr).
  - destruct fuel as [|fuel]; [done|].
    destruct Ha as (r0 & x0 & Es & Hr0 & Ha).
    rewrite (poll_running _ (World _ f x tr) r0 x0 Ht Es Hr0).
    apply (IH _ _ _ Ht Ha Hr). lia.
Qed.
End Poll.

Lemma poll_events_snoc (n : nat) (t : Z) (rq : request) :
  poll_events (S n) t rq = (poll_events n t rq ++ [ESleep t; EHttp rq])%list.
Proof.
  induction n as [|n IH]; [done|].
  cbn [poll_events app] in *. by rewrite <- IH.
Qed.

Lemma contains_middle (a b c : string) : contains b (a ++ b ++ c).
Proof. by exists a, c. Qed.

Lemma append_assoc3 (a b c : string) : (a ++ b) ++ c = a ++ (b ++ c).
Proof.
  induction a as [|x a IH]; [done|].
  change (String x ((a ++ b) ++ c) = String x (a ++ (b ++ c))).
  by rewrite IH.
Qed.

Lemma append_empty_r (a : string) : a ++ "" = a.
Proof.
  induction a as [|x a IH]; [done|].
  change (String x (a ++ "") = String x a). by rewrite IH.
Qed.

Lemma contains_end (a b : string) : contains b (a ++ b).
Proof. exists a, "". by rewrite append_empty_r. Qed.

Lemma job_failure_message_shows `{Runtime} (i c : value) :
  contains (py_str i) (job_failure_message i c) ∧
  contains (py_str c) (job_failure_message i c).
Proof.
  unfold job_failure_message. split.
  - apply contains_middle.
  - rewrite <- !append_assoc3. apply contains_end.
Qed.

Lemma created_dir_preserved {A} (act : fs_action A) (p : path)
    (f f1 f2 : fs) (r : exn + A) :
  mkdir_fs p f = inr f1 → act f1 = (r, f2) → preserves_dir act p →
  f2 !! p = Some Dir.
Proof.
  intros Hmk Hact Hp. apply mkdir_fs_created in Hmk as [_ ->].
  apply (Hp _ _ _ (lookup_insert_eq _ _ _) Hact).
Qed.

(** * The claims *)

Section Claims.
Context `{rt : Runtime} `{ad : Adapter}.
Implicit Types (self : processor) (data info : value) (w : world).
Implicit Types (outputs : option value) (j : string) (r : response).

(** C2.  When the POST to [<url_executor>/execute] is answered with a
    non-success status ([response.ok] false), [execute] raises and the
    working directory created for the job is no longer a directory of the
    file system; with an adapter that had left it in place, nothing is
    left at or below its path. *)
Theorem submission_failure_removes_working_dir
    self data outputs fuel w j f1 params f2 r x1 :
  bound_job_id self = Some j →
  mkdir_fs (working_dir_of self j) (files w) = inr f1 →
  prepare_input data (working_dir_of self j) outputs f1 = (inr params, f2) →
  serve (executor w) (submit_request self j params) = (inr r, x1) →
  ok r = false →
  ∃ e w', execute self data outputs fuel w = (Raise e, w') ∧
          files w' !! working_dir_of self j ≠ Some Dir ∧
          (preserves_dir (prepare_input data (working_dir_of self j) outputs)
             (working_dir_of self j) →
           ∀ q, working_dir_of self j `prefix_of` q → files w' !! q = None).
Proof.
  intros Hjob Hmk Hin Hpost Hok.
  destruct (execute_rejected self data outputs fuel w j Hjob f1 Hmk
              params f2 r x1 Hin Hpost Hok) as (a & E & _).
  eexists _, _. split; [exact E|]. cbn [files]. split.
  - apply after_rmtree_no_dir.
  - intros Hp. apply after_rmtree_gone.
    exact (created_dir_preserved _ _ _ _ _ _ Hmk Hin Hp).
Qed.

(** C3.  In asynchronous mode, when a GET to
    [<url_executor>/job_info/<job_id>] is answered with a non-success
    status after any number of "still running" answers, [execute] raises
    a [ProcessorExecuteError] and the file system is the one
    [prepare_input] left: the poll loop removed nothing, and the working
    directory is still there. *)
Theorem poll_failure_keeps_working_dir
    self data outputs fuel w j f1 params f2 r x1 n r' x2 :
  bound_job_id self = Some j →
  mkdir_fs (working_dir_of self j) (files w) = inr f1 →
  prepare_input data (working_dir_of self j) outputs f1 = (inr params, f2) →
  preserves_dir (prepare_input data (working_dir_of self j) outputs)
    (working_dir_of self j) →
  serve (executor w) (submit_request self j params) = (inr r, x1) →
  ok r = true →
  remote_execute_synch self = false →
  0 ≤ polling_time self →
  answers_after n (poll_request self j) x1 r' x2 →
  ok r' = false →
  (n < fuel)%nat →
  ∃ a, execute self data outputs fuel w
       = (Raise (ProcessorExecuteError a),
          World _ f2 x2
            ((trace w ++ [EMkdir (working_dir_of self j);
                          EHttp (submit_request self j params)])
             ++ poll_events (S n) (polling_time self) (poll_request self j)))
       ∧ f2 !! working_dir_of self j = Some Dir
       ∧ (processor_error_is_Exception = true → a = PyResponse r').
Proof.
  intros Hjob Hmk Hin Hp Hpost Hok Hasync Ht Ha Hok' Hfuel.
  rewrite (execute_accepted self data outputs fuel w j Hjob f1 Hmk
             params f2 r x1 Hin Hpost Hok).
  unfold terminal_info. rewrite Hasync.
  replace fuel with (n + S (fuel - n - 1))%nat by lia.
  set (tr := (trace w ++ _)%list).
  destruct (poll_answers self j n r' x2 f2 x1 tr (fuel - n - 1)%nat Ht Ha)
    as (x0 & Es & E).
  destruct (poll_failed self j (fuel - n - 1)%nat
              (World _ f2 x0 (tr ++ poll_events n (polling_time self)
                                      (poll_request self j))%list)
              r' x2 Ht Es Hok') as (a & E' & Hflag).
  exists a. split; [|split; [|done]].
  - apply bind_Raise. rewrite E, E'. cbn [files executor trace].
    by rewrite poll_events_snoc, app_assoc.
  - exact (created_dir_preserved _ _ _ _ _ _ Hmk Hin Hp).
Qed.

(** C4.  When the terminal job info, reached by either path, has
    [job_info.exit_code != 0], [execute] raises a [ProcessorExecuteError]
    whose message is built from [info['job_id']] and the exit code and
    shows both; [job_info.std_err] goes to the log only.  The message
    does not depend on [std_err]: a terminal info with the same job id
    and exit code raises the same error whatever its [std_err] is. *)
Theorem job_failure_message_hides_std_err
    self data outputs fuel w j f1 params f2 r x1 info w2 i c s :
  bound_job_id self = Some j →
  mkdir_fs (working_dir_of self j) (files w) = inr f1 →
  prepare_input data (working_dir_of self j) outputs f1 = (inr params, f2) →
  serve (executor w) (submit_request self j params) = (inr r, x1) →
  ok r = true →
  terminal_info self j fuel r
    (World _ f2 x1 (trace w ++ [EMkdir (working_dir_of self j);
                                EHttp (submit_request self j params)]))
  = (Return info, w2) →
  getitem info "job_id" = inr i →
  getitem2 info "job_info" "exit_code" = inr c →
  ne_zero c = true →
  getitem2 info "job_info" "std_err" = inr s →
  execute self data outputs fuel w
  = (Raise (ProcessorExecuteError (PyVal (VStr (job_failure_message i c)))),
     World _ (files w2) (executor w2)
       (trace w2 ++ [ELogError (job_failure_log i c s)]))
  ∧ contains (py_str i) (job_failure_message i c)
  ∧ contains (py_str c) (job_failure_message i c)
  ∧ ∀ info' s' w',
      getitem info' "job_id" = inr i →
      getitem2 info' "job_info" "exit_code" = inr c →
      getitem2 info' "job_info" "std_err" = inr s' →
      (conclude (working_dir_of self j) outputs info' w').1
      = (execute self data outputs fuel w).1.
Proof.
  intros Hjob Hmk Hin Hpost Hok Hterm Ei Ec Hc Es.
  assert (execute self data outputs fuel w
          = (Raise (ProcessorExecuteError
                      (PyVal (VStr (job_failure_message i c)))),
             World _ (files w2) (executor w2)
               (trace w2 ++ [ELogError (job_failure_log i c s)]))) as E.
  { rewrite (execute_accepted self data outputs fuel w j Hjob f1 Hmk
               params f2 r x1 Hin Hpost Hok).
    rewrite (bind_Return _ _ _ _ _ Hterm).
    apply conclude_failed. by apply check_failed. }
  split; [exact E|]. destruct (job_failure_message_shows i c) as [Hi Hcode].
  split; [exact Hi|]. split; [exact Hcode|].
  intros info' s' w' Ei' Ec' Es'. rewrite E.
  by rewrite (conclude_failed _ _ _ _ _ _
                (check_failed info' w' c i s' Ec' Hc Ei' Es')).
Qed.

(** C5.  With no job id bound ([self.job_id] is [None], or empty),
    [execute] raises a [ProcessorGenericError] at once: the world it
    leaves is the world it found, with no directory made, no request
    sent and no adapter method run. *)
Theorem execute_without_job_id self data outputs fuel w :
  bound_job_id self = None →
  execute self data outputs fuel w
  = (Raise (ProcessorGenericError (PyVal (VStr missing_job_id))), w).
Proof. apply execute_unbound. Qed.

(** C6.  When [prepare_input] raises [e], whatever exception [e] is, and
    the working directory is still in place at that moment, [execute]
    removes the working directory it made, with all that was staged below
    it, and raises [e] itself; no request is sent. *)
Theorem input_failure_cleans_up_and_reraises
    self data outputs fuel w j f1 e f2 :
  bound_job_id self = Some j →
  mkdir_fs (working_dir_of self j) (files w) = inr f1 →
  prepare_input data (working_dir_of self j) outputs f1 = (inl e, f2) →
  f2 !! working_dir_of self j = Some Dir →
  ∃ w', execute self data outputs fuel w = (Raise e, w') ∧
        (∀ q, working_dir_of self j `prefix_of` q → files w' !! q = None) ∧
        (∀ q, ¬ working_dir_of self j `prefix_of` q →
              files w' !! q = f2 !! q) ∧
        executor w' = executor w ∧
        trace w' = (trace w ++ [EMkdir (working_dir_of self j);
                                ERmtree (working_dir_of self j)])%list.
Proof.
  intros Hjob Hmk Hin Hd.
  destruct (execute_input_raised self data outputs fuel w j Hjob f1 Hmk
              e f2 Hin) as (o & E & Ho).
  rewrite (Ho Hd) in E. eexists. split; [exact E|]. cbn [files executor trace].
  split; [by apply after_rmtree_gone|].
  split; [apply after_rmtree_elsewhere|done].
Qed.

(** C9.  When something already exists at the path of the working
    directory, [execute] fails with [FileExistsError] on [os.mkdir]; the
    file system is left exactly as it was, nothing is sent and no adapter
    method runs. *)
Theorem reused_job_id_is_refused self data outputs fuel w j n :
  bound_job_id self = Some j →
  files w !! working_dir_of self j = Some n →
  execute self data outputs fuel w
  = (Raise (FileExistsError (working_dir_of self j)),
     World _ (files w) (executor w)
       (trace w ++ [EMkdir (working_dir_of self j)])).
Proof.
  intros Hjob Hn.
  exact (execute_mkdir_raised self data outputs fuel w j Hjob _
           (mkdir_fs_exists _ _ _ Hn)).
Qed.

(** C8.  In synchronous mode, for a request that [prepare_input]
    accepts, a submission answered with success and a body whose exit
    code is [0]: the body is the terminal job info, [execute] returns
    what [prepare_output] returns for it, the POST is the only request
    sent, and the working directory is still there.  Both adapter
    methods are taken to leave the working directory in place. *)
Theorem synchronous_execution_returns_prepared_output
    self data outputs fuel w j f1 params f2 r x1 info c res f3 :
  bound_job_id self = Some j →
  mkdir_fs (working_dir_of self j) (files w) = inr f1 →
  prepare_input data (working_dir_of self j) outputs f1 = (inr params, f2) →
  preserves_dir (prepare_input data (working_dir_of self j) outputs)
    (working_dir_of self j) →
  serve (executor w) (submit_request self j params) = (inr r, x1) →
  ok r = true →
  remote_execute_synch self = true →
  body r = Some info →
  getitem2 info "job_info" "exit_code" = inr c →
  ne_zero c = false →
  prepare_output info (working_dir_of self j) outputs f2 = (inr res, f3) →
  preserves_dir (prepare_output info (working_dir_of self j) outputs)
    (working_dir_of self j) →
  execute self data outputs fuel w
  = (Return res,
     World _ f3 x1 (trace w ++ [EMkdir (working_dir_of self j);
                                EHttp (submit_request self j params)]))
  ∧ f3 !! working_dir_of self j = Some Dir.
Proof.
  intros Hjob Hmk Hin Hp Hpost Hok Hsync Eb Ec Hc Hout Hp'. split.
  - rewrite (execute_accepted self data outputs fuel w j Hjob f1 Hmk
               params f2 r x1 Hin Hpost Hok).
    unfold terminal_info. rewrite Hsync.
    set (w1 := World _ f2 x1 _).
    assert (json r w1 = (Return info, w1)) as E by (by rewrite json_eq, Eb).
    rewrite (bind_Return _ _ _ _ _ E).
    exact (conclude_passed info w1 _ outputs c res f3 Ec Hc Hout).
  - apply (Hp' f2 (inr res) f3); [|done].
    exact (created_dir_preserved _ _ _ _ _ _ Hmk Hin Hp).
Qed.

(** C10.  In synchronous mode the body of the accepted submission is the
    terminal job info as it is: [execute] goes on with the check of the
    exit code, in which [end_processing] is not read, and a non-zero exit
    code raises the job failure.  Nothing is assumed of
    [job_info.end_processing]: it may be false, or absent. *)
Theorem synchronous_mode_ignores_end_processing
    self data outputs fuel w j f1 params f2 r x1 info :
  bound_job_id self = Some j →
  mkdir_fs (working_dir_of self j) (files w) = inr f1 →
  prepare_input data (working_dir_of self j) outputs f1 = (inr params, f2) →
  serve (executor w) (submit_request self j params) = (inr r, x1) →
  ok r = true →
  remote_execute_synch self = true →
  body r = Some info →
  execute self data outputs fuel w
  = conclude (working_dir_of self j) outputs info
      (World _ f2 x1 (trace w ++ [EMkdir (working_dir_of self j);
                                  EHttp (submit_request self j params)]))
  ∧ ∀ i c s,
      getitem info "job_id" = inr i →
      getitem2 info "job_info" "exit_code" = inr c →
      ne_zero c = true →
      getitem2 info "job_info" "std_err" = inr s →
      execute self data outputs fuel w
      = (Raise (ProcessorExecuteError
                  (PyVal (VStr (job_failure_message i c)))),
         World _ f2 x1
           ((trace w ++ [EMkdir (working_dir_of self j);
                         EHttp (submit_request self j params)])
            ++ [ELogError (job_failure_log i c s)])).
Proof.
  intros Hjob Hmk Hin Hpost Hok Hsync Eb.
  assert (execute self data outputs fuel w
          = conclude (working_dir_of self j) outputs info
              (World _ f2 x1
                 (trace w ++ [EMkdir (working_dir_of self j);
                              EHttp (submit_request self j params)]))) as E.
  { rewrite (execute_accepted self data outputs fuel w j Hjob f1 Hmk
               params f2 r x1 Hin Hpost Hok).
    unfold terminal_info. rewrite Hsync. apply bind_Return.
    by rewrite json_eq, Eb. }
  split; [exact E|]. intros i c s Ei Ec Hc Es. rewrite E.
  apply conclude_failed. by rewrite (check_failed _ _ c i s Ec Hc Ei Es).
Qed.

(** C7.  The poll loop returns a job info only when its
    [job_info.end_processing] is truthy; it has no cap on its turns: after
    any number [n] of "still running" answers it returns the first ended
    job info, and as long as the answers are "still running" it is still
    looping.  Whenever the terminal job info, from either path, has
    [job_info.exit_code != 0], [execute] raises, whatever the other
    fields hold; the error is the job failure when [job_id] and [std_err]
    are there to be formatted. *)
Theorem poll_loop_ends_on_end_processing_only self j :
  (∀ fuel w info w',
     poll self j fuel w = (Return info, w') →
     ∃ e, getitem2 info "job_info" "end_processing" = inr e ∧
          truthy e = true)
  ∧ (∀ n fuel f x tr r x' info e,
       0 ≤ polling_time self →
       answers_after n (poll_request self j) x r x' →
       ok r = true → body r = Some info →
       getitem2 info "job_info" "end_processing" = inr e →
       truthy e = true →
       (n < fuel)%nat →
       poll self j fuel (World _ f x tr)
       = (Return info,
          World _ f x'
            (tr ++ poll_events (S n) (polling_time self)
                     (poll_request self j))))
  ∧ (∀ n fuel f x tr r x',
       0 ≤ polling_time self →
       answers_after n (poll_request self j) x r x' →
       still_running r →
       (fuel ≤ S n)%nat →
       (poll self j fuel (World _ f x tr)).1 = Spin)
  ∧ (∀ data outputs fuel w f1 params f2 r x1 info w2 c,
       bound_job_id self = Some j →
       mkdir_fs (working_dir_of self j) (files w) = inr f1 →
       prepare_input data (working_dir_of self j) outputs f1
       = (inr params, f2) →
       serve (executor w) (submit_request self j params) = (inr r, x1) →
       ok r = true →
       terminal_info self j fuel r
         (World _ f2 x1 (trace w ++ [EMkdir (working_dir_of self j);
                                     EHttp (submit_request self j params)]))
       = (Return info, w2) →
       getitem2 info "job_info" "exit_code" = inr c →
       ne_zero c = true →
       ∃ e w', execute self data outputs fuel w = (Raise e, w') ∧
               files w' = files w2 ∧
               ∀ i s, getitem info "job_id" = inr i →
                      getitem2 info "job_info" "std_err" = inr s →
                      e = ProcessorExecuteError
                            (PyVal (VStr (job_failure_message i c)))).
Proof.
  split; [|split; [|split]].
  - intros fuel. apply poll_returns_ended.
  - intros n fuel f x tr r x' info e Ht Ha Hok Eb Ee He Hfuel.
    replace fuel with (n + S (fuel - n - 1))%nat by lia.
    destruct (poll_answers self j n r x' f x tr (fuel - n - 1)%nat Ht Ha)
      as (x0 & Es & ->).
    rewrite (poll_ended self j _ (World _ f x0 _) r x' info e
               Ht Es Hok Eb Ee He).
    cbn [files executor trace]. by rewrite poll_events_snoc, app_assoc.
  - intros n fuel f x tr r x'. apply poll_spins.
  - intros data outputs fuel w f1 params f2 r x1 info w2 c
      Hjob Hmk Hin Hpost Hok Hterm Ec Hc.
    destruct (check_never_passes info w2 c Ec Hc) as (e & w' & E & Hf & _).
    exists e, w'. split; [|split; [done|]].
    + rewrite (execute_accepted self data outputs fuel w j Hjob f1 Hmk
                 params f2 r x1 Hin Hpost Hok).
      rewrite (bind_Return _ _ _ _ _ Hterm). by apply conclude_failed.
    + intros i s Ei Es.
      rewrite (check_failed info w2 c i s Ec Hc Ei Es) in E. by simplify_eq.
Qed.
End Claims.

(** ** The example adapter *)

Lemma staging_input_preserves (data : value) (p : path)
    (outputs : option value) :
  preserves_dir (@prepare_input staging_adapter data p outputs) p.
Proof.
  intros f r f' Hd E. cbn in E.
  assert (f' = <[(p ++ ["input.txt"])%list := File "staged"]> f) as ->
    by (destruct data; by simplify_eq).
  rewrite lookup_insert_ne; [done|].
  intros Heq. apply (f_equal length) in Heq. rewrite length_app in Heq.
  cbn in Heq. lia.
Qed.

Lemma staging_output_preserves (info : value) (p : path)
    (outputs : option value) :
  preserves_dir (@prepare_output staging_adapter info p outputs) p.
Proof. intros f r f' Hd E. cbn in E. by simplify_eq. Qed.

(** ** Worked examples *)

(** C1.  The submission is answered with HTTP 400 and the body
    [{"Message": "bad params"}]: the [ProcessorExecuteError] built from the
    parsed message is raised inside the [try] and caught by its own
    [except Exception], so what [execute] raises carries the response
    object, not ["bad params"]. *)
Theorem rejected_submission_raises_the_response :
  (@execute scripted staging_adapter (demo_processor true (Some "abc123"))
     (VDict []) None 0 (demo_world [inr bad_params])).1
  = Raise (ProcessorExecuteError (PyResponse bad_params))
  ∧ (@execute scripted staging_adapter (demo_processor true (Some "abc123"))
       (VDict []) None 0 (demo_world [inr bad_params])).1
    ≠ Raise (ProcessorExecuteError (PyVal (VStr "bad params"))).
Proof.
  destruct (@execute_rejected scripted staging_adapter
              (demo_processor true (Some "abc123")) (VDict []) None 0%nat
              (demo_world [inr bad_params]) "abc123" eq_refl
              demo_made eq_refl (VDict []) demo_staged bad_params []
              eq_refl eq_refl eq_refl) as (a & E & Ha).
  rewrite E, (Ha eq_refl). by split.
Qed.

Lemma submission_failure_removes_working_dir_witness :
  ∃ e w',
    @execute scripted staging_adapter (demo_processor true (Some "abc123"))
      (VDict []) None 0 (demo_world [inr bad_params]) = (Raise e, w') ∧
    files w' !! demo_dir ≠ Some Dir ∧
    (preserves_dir (@prepare_input staging_adapter (VDict []) demo_dir None)
       demo_dir →
     ∀ q, demo_dir `prefix_of` q → files w' !! q = None).
Proof.
  apply (submission_failure_removes_working_dir
           (rt := scripted) (ad := staging_adapter)
           (demo_processor true (Some "abc123")) (VDict []) None 0%nat
           (demo_world [inr bad_params]) "abc123" demo_made (VDict [])
           demo_staged bad_params []); reflexivity.
Defined.

Lemma running_still_running : still_running running.
Proof. split; [reflexivity|]. eexists _, _. repeat split; reflexivity. Qed.

Lemma poll_failure_keeps_working_dir_witness :
  ∃ a w',
    @execute scripted staging_adapter (demo_processor false (Some "abc123"))
      (VDict []) None 5
      (demo_world [inr accepted; inr running; inr unavailable])
    = (Raise (ProcessorExecuteError a), w') ∧
    files w' = demo_staged ∧ files w' !! demo_dir = Some Dir.
Proof.
  destruct (poll_failure_keeps_working_dir
              (rt := scripted) (ad := staging_adapter)
              (demo_processor false (Some "abc123")) (VDict []) None 5%nat
              (demo_world [inr accepted; inr running; inr unavailable])
              "abc123" demo_made (VDict []) demo_staged accepted
              [inr running; inr unavailable] 1%nat unavailable [])
    as (a & E & Hd & _).
  - reflexivity.
  - reflexivity.
  - reflexivity.
  - apply staging_input_preserves.
  - reflexivity.
  - reflexivity.
  - reflexivity.
  - cbn. lia.
  - exists running, [inr unavailable].
    split; [reflexivity|]. split; [apply running_still_running|reflexivity].
  - reflexivity.
  - lia.
  - exists a. eexists. split; [exact E|]. split; [reflexivity|exact Hd].
Defined.

Lemma job_failure_message_hides_std_err_witness :
  (@execute scripted staging_adapter (demo_processor true (Some "abc123"))
     (VDict []) None 0 (demo_world [inr boom])).1
  = Raise (ProcessorExecuteError
             (PyVal (VStr "The job 'abc123' exited with code 1"))).
Proof.
  destruct (job_failure_message_hides_std_err
              (rt := scripted) (ad := staging_adapter)
              (demo_processor true (Some "abc123")) (VDict []) None 0%nat
              (demo_world [inr boom]) "abc123" demo_made (VDict [])
              demo_staged boom []
              (demo_job_info (VBool true) 1 "boom")
              (@World scripted demo_staged []
                 [EMkdir demo_dir; EHttp (demo_submit true)])
              (VStr "abc123") (VInt 1) (VStr "boom")
              eq_refl eq_refl eq_refl eq_refl eq_refl eq_refl eq_refl
              eq_refl eq_refl eq_refl) as (E & _).
  rewrite E. reflexivity.
Defined.

Lemma execute_without_job_id_witness :
  @execute scripted staging_adapter (demo_processor true None) (VDict [])
    None 0 (demo_world [inr succeeded])
  = (Raise (ProcessorGenericError (PyVal (VStr missing_job_id))),
     demo_world [inr succeeded]).
Proof.
  apply (execute_without_job_id (rt := scripted) (ad := staging_adapter)).
  reflexivity.
Defined.

Lemma input_failure_cleans_up_and_reraises_witness :
  ∃ w',
    @execute scripted staging_adapter (demo_processor true (Some "abc123"))
      (VStr "oops") None 0 (demo_world [inr succeeded])
    = (Raise (ProcessorExecuteError (PyVal (VStr "bad request"))), w') ∧
    files w' !! demo_dir = None ∧
    files w' !! (demo_dir ++ ["input.txt"])%list = None ∧
    executor w' = [inr succeeded].
Proof.
  destruct (input_failure_cleans_up_and_reraises
              (rt := scripted) (ad := staging_adapter)
              (demo_processor true (Some "abc123")) (VStr "oops") None 0%nat
              (demo_world [inr succeeded]) "abc123" demo_made
              (ProcessorExecuteError (PyVal (VStr "bad request")))
              demo_staged eq_refl eq_refl eq_refl eq_refl)
    as (w' & E & Hgone & _ & Hx & _).
  exists w'. split; [exact E|]. split; [|split; [|exact Hx]].
  - apply Hgone. reflexivity.
  - apply Hgone. by exists ["input.txt"].
Defined.

(** C6, as first stated, fails where [prepare_input] has removed the
    working directory before it raises: here the adapter raises
    [ValueError], [shutil.rmtree] then raises in the handler, and what
    [execute] raises is its [FileNotFoundError], not the original
    error. *)
Lemma input_failure_reraise_counterexample :
  (@prepare_input careless_adapter (VDict []) demo_dir None demo_made).1
  = inl ValueError
  ∧ (@execute scripted careless_adapter (demo_processor true (Some "abc123"))
       (VDict []) None 0 (demo_world [inr succeeded])).1
    = Raise (FileNotFoundError demo_dir)
  ∧ (@execute scripted careless_adapter (demo_processor true (Some "abc123"))
       (VDict []) None 0 (demo_world [inr succeeded])).1
    ≠ Raise ValueError.
Proof.
  assert ((@execute scripted careless_adapter
             (demo_processor true (Some "abc123")) (VDict []) None 0
             (demo_world [inr succeeded])).1
          = Raise (FileNotFoundError demo_dir)) as E by reflexivity.
  split; [reflexivity|]. split; [exact E|]. rewrite E. discriminate.
Qed.

Lemma synchronous_execution_returns_prepared_output_witness :
  @execute scripted staging_adapter (demo_processor true (Some "abc123"))
    (VDict []) None 0 (demo_world [inr succeeded])
  = (Return ("application/json", demo_job_info (VBool true) 0 ""),
     @World scripted demo_staged []
       [EMkdir demo_dir; EHttp (demo_submit true)])
  ∧ demo_staged !! demo_dir = Some Dir.
Proof.
  apply (synchronous_execution_returns_prepared_output
           (rt := scripted) (ad := staging_adapter)
           (demo_processor true (Some "abc123")) (VDict []) None 0%nat
           (demo_world [inr succeeded]) "abc123" demo_made (VDict [])
           demo_staged succeeded [] (demo_job_info (VBool true) 0 "")
           (VInt 0) ("application/json", demo_job_info (VBool true) 0 "")
           demo_staged);
    try reflexivity.
  - apply staging_input_preserves.
  - apply staging_output_preserves.
Defined.

Lemma reused_job_id_is_refused_witness :
  @execute scripted staging_adapter (demo_processor true (Some "abc123"))
    (VDict []) None 0 (@World scripted demo_staged [inr succeeded] [])
  = (Raise (FileExistsError demo_dir),
     @World scripted demo_staged [inr succeeded] [EMkdir demo_dir]).
Proof.
  apply (reused_job_id_is_refused (rt := scripted) (ad := staging_adapter)
           (demo_processor true (Some "abc123")) (VDict []) None 0%nat
           (@World scripted demo_staged [inr succeeded] []) "abc123" Dir);
    reflexivity.
Defined.

Lemma synchronous_mode_ignores_end_processing_witness :
  @execute scripted staging_adapter (demo_processor true (Some "abc123"))
    (VDict []) None 0 (demo_world [inr boom_unfinished])
  = (Raise (ProcessorExecuteError
              (PyVal (VStr "The job 'abc123' exited with code 2"))),
     @World scripted demo_staged []
       [EMkdir demo_dir; EHttp (demo_submit true);
        ELogError (@job_failure_log scripted (VStr "abc123") (VInt 2)
                     (VStr "boom"))])
  ∧ getitem2 boom_unfinished_info "job_info" "end_processing"
    = inl (KeyError "end_processing").
Proof.
  destruct (synchronous_mode_ignores_end_processing
              (rt := scripted) (ad := staging_adapter)
              (demo_processor true (Some "abc123")) (VDict []) None 0%nat
              (demo_world [inr boom_unfinished]) "abc123" demo_made
              (VDict []) demo_staged boom_unfinished [] boom_unfinished_info
              eq_refl eq_refl eq_refl eq_refl eq_refl eq_refl eq_refl)
    as (_ & H).
  split; [|reflexivity].
  rewrite (H (VStr "abc123") (VInt 2) (VStr "boom")
             eq_refl eq_refl eq_refl eq_refl).
  reflexivity.
Defined.

Lemma poll_loop_ends_on_end_processing_only_witness :
  @poll scripted (demo_processor false (Some "abc123")) "abc123" 5
    (@World scripted demo_staged [inr running; inr running; inr boom] [])
  = (Return (demo_job_info (VBool true) 1 "boom"),
     @World scripted demo_staged []
       [ESleep 3; EHttp demo_poll; ESleep 3; EHttp demo_poll;
        ESleep 3; EHttp demo_poll])
  ∧ (@poll scripted (demo_processor false (Some "abc123")) "abc123" 2
       (@World scripted demo_staged [inr running; inr running; inr boom]
          [])).1
    = Spin.
Proof.
  destruct (poll_loop_ends_on_end_processing_only
              (rt := scripted) (ad := staging_adapter)
              (demo_processor false (Some "abc123")) "abc123")
    as (_ & Hends & Hspins & _).
  split.
  - apply (Hends 2%nat 5%nat demo_staged [inr running; inr running; inr boom]
             [] boom [] (demo_job_info (VBool true) 1 "boom") (VBool true)).
    + cbn. lia.
    + exists running, [inr running; inr boom].
      split; [reflexivity|]. split; [apply running_still_running|].
      exists running, [inr boom].
      split; [reflexivity|]. split; [apply running_still_running|].
      reflexivity.
    + reflexivity.
    + reflexivity.
    + reflexivity.
    + reflexivity.
    + lia.
  - apply (Hspins 1%nat 2%nat demo_staged
             [inr running; inr running; inr boom] [] running [inr boom]).
    + cbn. lia.
    + exists running, [inr running; inr boom].
      split; [reflexivity|]. split; [apply running_still_running|].
      reflexivity.
    + apply running_still_running.
    + lia.
Defined.

(** The asynchronous scenario of the specification: a first poll still
    running, a second one ended with exit code [1] and ["boom"] on the
    error stream. *)
Example asynchronous_failure_scenario :
  @execute scripted staging_adapter (demo_processor false (Some "abc123"))
    (VDict []) None 2 (demo_world [inr accepted; inr running; inr boom])
  = (Raise (ProcessorExecuteError
              (PyVal (VStr "The job 'abc123' exited with code 1"))),
     @World scripted demo_staged []
       [EMkdir demo_dir; EHttp (demo_submit false);
        ESleep 3; EHttp demo_poll; ESleep 3; EHttp demo_poll;
        ELogError (@job_failure_log scripted (VStr "abc123") (VInt 1)
                     (VStr "boom"))])
  ∧ demo_staged !! demo_dir = Some Dir.
Proof. split; reflexivity. Qed.

(** * More of [execute]: the paths the claims leave out *)

(** Unfold the named worlds and bring the trace to one list. *)
Ltac tidy :=
  repeat match goal with x := World _ _ _ _ |- _ => subst x end;
  cbn [files executor trace]; rewrite <- ?app_assoc; cbn [app].

Lemma http_raised `{Runtime} rq w e x' :
  serve (executor w) rq = (inl e, x') →
  http rq w = (Raise e, World _ (files w) x' (trace w ++ [EHttp rq])).
Proof. intros E. unfold http, bind, emit. cbn. by rewrite E. Qed.

Section Paths.
Context `{rt : Runtime} `{ad : Adapter}.
Variables (self : processor) (data : value) (outputs : option value).
Variables (fuel : nat) (w : world) (j : string) (f1 : fs).

Local Abbreviation wd := (working_dir_of self j).

Hypothesis Hjob : bound_job_id self = Some j.
Hypothesis Hmk : mkdir_fs wd (files w) = inr f1.

(** X7.  When [prepare_input] raises and has left no directory at the working
    path, [shutil.rmtree] raises in the handler and its error takes the
    place of the original one. *)
Lemma input_error_masked e f2 :
  prepare_input data wd outputs f1 = (inl e, f2) →
  f2 !! wd ≠ Some Dir →
  ∃ e', execute self data outputs fuel w
        = (Raise e', World _ f2 (executor w)
                       (trace w ++ [EMkdir wd; ERmtree wd]))
        ∧ (e' = FileNotFoundError wd ∨ e' = NotADirectoryError wd).
Proof.
  intros Hin Hd.
  assert (∃ e', rmtree_fs wd f2 = inl e') as [e' Er].
  { unfold rmtree_fs. destruct (f2 !! wd) as [[]|]; [done|eauto..]. }
  exists e'. destruct (rmtree_fs_failed _ _ _ Er) as [_ He']. split; [|done].
  unfold execute. rewrite Hjob.
  rewrite (bind_Return _ _ _ _ _ (mkdir_done _ _ _ Hmk)).
  set (w1 := World _ f1 _ _).
  pose proof (on_files_raised _ w1 _ _ Hin) as E1.
  apply bind_Raise. rewrite (try_caught _ _ _ _ _ _ E1 eq_refl).
  apply bind_Raise. unfold rmtree, bind, emit, on_files.
  cbn [files executor trace]. rewrite Er. cbn [of_sum]. unfold raise.
  tidy. done.
Qed.

Variables (params : value) (f2 : fs).
Hypothesis Hin : prepare_input data wd outputs f1 = (inr params, f2).

(** X6.  When [requests.post] itself raises, the error goes to the caller as it
    is and nothing is cleaned up: the working directory stays, with what
    [prepare_input] staged in it. *)
Lemma transport_error_leaves_staged_files e x1 :
  serve (executor w) (submit_request self j params) = (inl e, x1) →
  execute self data outputs fuel w
  = (Raise e, World _ f2 x1
                (trace w ++ [EMkdir wd; EHttp (submit_request self j params)])).
Proof.
  intros Hpost. unfold execute. rewrite Hjob.
  rewrite (bind_Return _ _ _ _ _ (mkdir_done _ _ _ Hmk)).
  set (w1 := World _ f1 _ _).
  pose proof (on_files_returned _ w1 _ _ Hin) as E1.
  rewrite (bind_Return _ _ _ _ _ (try_Return _ _ _ _ _ _ E1)).
  set (w2 := World _ f2 _ _).
  pose proof (http_raised _ w2 _ _ Hpost) as E2.
  unfold submit_request in E2 at 1. rewrite (bind_Raise _ _ _ _ _ E2).
  tidy. done.
Qed.

Variables (r : response) (x1 : remote).
Hypothesis Hpost :
  serve (executor w) (submit_request self j params) = (inr r, x1).
Hypothesis Hok : ok r = true.

Local Abbreviation submitted :=
  (World _ f2 x1 (trace w ++ [EMkdir wd; EHttp (submit_request self j params)])).

(** Whatever stops the terminal job info from being obtained (a body that
    is not JSON, a failed poll, a transport error) reaches the caller as
    it is. *)
Lemma terminal_error_propagates e w2 :
  terminal_info self j fuel r submitted = (Raise e, w2) →
  execute self data outputs fuel w = (Raise e, w2).
Proof.
  intros E.
  rewrite (execute_accepted self data outputs fuel w j Hjob f1 Hmk
             params f2 r x1 Hin Hpost Hok).
  by apply bind_Raise.
Qed.

Variables (info : value) (w2 : world).
Hypothesis Hterm : terminal_info self j fuel r submitted = (Return info, w2).

Lemma execute_concludes :
  execute self data outputs fuel w = conclude wd outputs info w2.
Proof.
  rewrite (execute_accepted self data outputs fuel w j Hjob f1 Hmk
             params f2 r x1 Hin Hpost Hok).
  by apply bind_Return.
Qed.

(** X9.  A terminal job info without [job_info] or without [exit_code] (or
    that is not a [dict]) makes [execute] raise the [KeyError] or
    [TypeError] of the failed subscript; [prepare_output] is not run. *)
Lemma missing_exit_code_raises e :
  getitem2 info "job_info" "exit_code" = inl e →
  execute self data outputs fuel w = (Raise e, w2).
Proof.
  intros Ec. rewrite execute_concludes. apply conclude_failed.
  unfold check_exit_code. apply bind_Raise. by rewrite get2_eq, Ec.
Qed.

(** X10.  A failed job whose info lacks [job_id] or [std_err] is not reported as
    a job failure: building the log text raises first, nothing is logged,
    and the caller gets the [KeyError] (or [TypeError]). *)
Lemma failure_report_needs_its_fields c :
  getitem2 info "job_info" "exit_code" = inr c → ne_zero c = true →
  (∀ e, getitem info "job_id" = inl e →
        execute self data outputs fuel w = (Raise e, w2)) ∧
  (∀ i e, getitem info "job_id" = inr i →
          getitem2 info "job_info" "std_err" = inl e →
          execute self data outputs fuel w = (Raise e, w2)).
Proof.
  intros Ec Hc. split.
  - intros e Ei. rewrite execute_concludes. apply conclude_failed.
    unfold check_exit_code, bind. by rewrite get2_eq, Ec, Hc, get_eq, Ei.
  - intros i e Ei Es. rewrite execute_concludes. apply conclude_failed.
    unfold check_exit_code, bind.
    by rewrite get2_eq, Ec, Hc, get_eq, Ei, get2_eq, Ec, get2_eq, Es.
Qed.

(** X11.  An error of [prepare_output] goes to the caller as it is; the working
    directory is not removed. *)
Lemma output_error_propagates c e f3 :
  getitem2 info "job_info" "exit_code" = inr c → ne_zero c = false →
  prepare_output info wd outputs (files w2) = (inl e, f3) →
  execute self data outputs fuel w
  = (Raise e, World _ f3 (executor w2) (trace w2)).
Proof.
  intros Ec Hc Eo. rewrite execute_concludes. unfold conclude.
  rewrite (bind_Return _ _ _ _ _ (check_passed _ _ _ Ec Hc)).
  apply bind_Raise. by apply on_files_raised.
Qed.
End Paths.

(** ** What every run of [execute] keeps *)

Section Keeps.
Context `{rt : Runtime}.
Variable R : world → world → Prop.
Hypothesis R_refl : ∀ w, R w w.
Hypothesis R_trans : ∀ w1 w2 w3, R w1 w2 → R w2 w3 → R w1 w3.

Lemma keeps_ret {A} (a : A) : keeps R (ret a).
Proof. intros w. apply R_refl. Qed.

Lemma keeps_raise {A} (e : exn) : keeps R (@raise _ A e).
Proof. intros w. apply R_refl. Qed.

Lemma keeps_of_sum {A} (r : exn + A) : keeps R (of_sum r).
Proof. destruct r; [apply keeps_raise|apply keeps_ret]. Qed.

Lemma keeps_bind {A B} (m : M A) (k : A → M B) :
  keeps R m → (∀ a, keeps R (k a)) → keeps R (bind m k).
Proof.
  intros Hm Hk w. specialize (Hm w). unfold bind.
  destruct (m w) as [[a|e|] w']; cbn in *; [|done..].
  exact (R_trans _ _ _ Hm (Hk a w')).
Qed.

Lemma keeps_try {A} (m : M A) c (h : exn → M A) :
  keeps R m → (∀ e, keeps R (h e)) → keeps R (try_except m c h).
Proof.
  intros Hm Hh w. specialize (Hm w). unfold try_except.
  destruct (m w) as [[a|e|] w']; cbn in *; [done| |done].
  destruct (c e); [|done]. exact (R_trans _ _ _ Hm (Hh e w')).
Qed.
End Keeps.

Section Frame.
Context `{rt : Runtime} `{ad : Adapter}.
Variable p : path.

Local Abbreviation frame := (frame p).

Lemma frame_refl w : frame w w.
Proof. by intros q _. Qed.

Lemma frame_trans w1 w2 w3 : frame w1 w2 → frame w2 w3 → frame w1 w3.
Proof. intros H1 H2 q Hq. by rewrite (H2 q Hq), (H1 q Hq). Qed.

Lemma frame_emit e : keeps frame (emit e).
Proof. by intros w q _. Qed.

Lemma frame_mkdir : keeps frame (mkdir p).
Proof.
  intros w q Hq. unfold mkdir, bind, emit, on_files. cbn [files].
  destruct (mkdir_fs p (files w)) as [e|f'] eqn:E; cbn; [done|].
  apply mkdir_fs_created in E as [_ ->].
  apply lookup_insert_ne. by intros <-.
Qed.

Lemma frame_rmtree : keeps frame (rmtree p).
Proof.
  intros w q Hq. destruct (rmtree_result p w) as (o & -> & _). cbn.
  by apply after_rmtree_elsewhere.
Qed.

Lemma frame_http rq : keeps frame (http rq).
Proof.
  intros w q _. unfold http, bind, emit. cbn [files executor trace].
  by destruct (serve (executor w) rq) as [[e|r] x'].
Qed.

Lemma frame_on_files {A} (act : fs_action A) :
  confined act p → keeps frame (on_files act).
Proof.
  intros Hc w q Hq. unfold on_files.
  destruct (act (files w)) as [r f'] eqn:E.
  rewrite <- (Hc _ _ _ E q Hq). by destruct r.
Qed.

Lemma frame_poll self j fuel : keeps frame (poll self j fuel).
Proof. intros w q _. by rewrite poll_files. Qed.

Lemma frame_get v k : keeps frame (get v k).
Proof. apply keeps_of_sum. apply frame_refl. Qed.

Lemma frame_get2 v k1 k2 : keeps frame (get2 v k1 k2).
Proof.
  apply (keeps_bind _ frame_trans); [apply frame_get|intros; apply frame_get].
Qed.

Lemma frame_json r : keeps frame (json r).
Proof. apply keeps_of_sum. apply frame_refl. Qed.

Lemma frame_check info : keeps frame (check_exit_code info).
Proof.
  unfold check_exit_code.
  apply (keeps_bind _ frame_trans); [apply frame_get2|intros c].
  destruct (ne_zero c); [|apply keeps_ret, frame_refl].
  repeat first
    [ apply (keeps_bind _ frame_trans); [|intros ?]
    | apply frame_get | apply frame_get2 | apply frame_emit
    | apply keeps_raise, frame_refl ].
Qed.

Lemma frame_execute self data outputs fuel :
  (∀ j, bound_job_id self = Some j → p = working_dir_of self j) →
  (∀ d o, confined (prepare_input d p o) p) →
  (∀ i o, confined (prepare_output i p o) p) →
  keeps frame (execute self data outputs fuel).
Proof.
  intros Hp Hin Hout. unfold execute.
  destruct (bound_job_id self) as [j|]; [|apply keeps_raise, frame_refl].
  rewrite <- (Hp j eq_refl).
  apply (keeps_bind _ frame_trans); [apply frame_mkdir|intros _].
  apply (keeps_bind _ frame_trans).
  { apply (keeps_try _ frame_trans); [by apply frame_on_files|intros e].
    apply (keeps_bind _ frame_trans); [apply frame_rmtree|intros _].
    apply keeps_raise, frame_refl. }
  intros params.
  apply (keeps_bind _ frame_trans); [apply frame_http|intros r].
  apply (keeps_bind _ frame_trans).
  { destruct (negb (ok r)); [|apply keeps_ret, frame_refl].
    apply (keeps_try _ frame_trans).
    - apply (keeps_bind _ frame_trans); [apply frame_rmtree|intros _].
      apply (keeps_bind _ frame_trans).
      + apply (keeps_bind _ frame_trans); [apply frame_json|intros ?].
        apply frame_get.
      + intros ?. apply keeps_raise, frame_refl.
    - intros _. apply keeps_raise, frame_refl. }
  intros _.
  apply (keeps_bind _ frame_trans).
  { destruct (remote_execute_synch self);
      [apply frame_json|apply frame_poll]. }
  intros info.
  apply (keeps_bind _ frame_trans); [apply frame_check|intros _].
  apply (keeps_bind _ frame_trans); [by apply frame_on_files|].
  intros [m o]. apply keeps_ret, frame_refl.
Qed.
End Frame.

Lemma posts_app (e1 e2 : list event) :
  posts (e1 ++ e2) = (posts e1 + posts e2)%nat.
Proof.
  induction e1 as [|[| |[]| |] e1 IH]; cbn [posts app]; [done|..]; by rewrite IH.
Qed.

Section Emits.
Context `{rt : Runtime}.
Variable ok_ev : event → Prop.

Lemma emits_ret {A} (a : A) : emits ok_ev 0 (ret a).
Proof. intros w. exists []. cbn. by rewrite app_nil_r. Qed.

Lemma emits_raise {A} (e : exn) : emits ok_ev 0 (@raise _ A e).
Proof. intros w. exists []. cbn. by rewrite app_nil_r. Qed.

Lemma emits_spin {A} : emits ok_ev 0 (λ w, (@Spin A, w)).
Proof. intros w. exists []. cbn. by rewrite app_nil_r. Qed.

Lemma emits_of_sum {A} (r : exn + A) : emits ok_ev 0 (of_sum r).
Proof. destruct r; [apply emits_raise|apply emits_ret]. Qed.

Lemma emits_weaken {A} (m : M A) n n' :
  (n ≤ n')%nat → emits ok_ev n m → emits ok_ev n' m.
Proof.
  intros Hn Hm w. destruct (Hm w) as (evs & E & Ha & Hp).
  exists evs. repeat split; [done..|lia].
Qed.

Lemma emits_bind {A B} n k (m : M A) (f : A → M B) :
  emits ok_ev n m → (∀ a, emits ok_ev k (f a)) →
  emits ok_ev (n + k) (bind m f).
Proof.
  intros Hm Hf w. destruct (Hm w) as (e1 & E1 & Ha1 & Hp1). unfold bind.
  destruct (m w) as [[a|e|] w']; cbn [snd] in *.
  - destruct (Hf a w') as (e2 & E2 & Ha2 & Hp2).
    exists (e1 ++ e2)%list. rewrite E2, E1, app_assoc, posts_app.
    repeat split; [by apply Forall_app|lia].
  - exists e1. repeat split; [done..|lia].
  - exists e1. repeat split; [done..|lia].
Qed.

Lemma emits_try {A} n k (m : M A) c (h : exn → M A) :
  emits ok_ev n m → (∀ e, emits ok_ev k (h e)) →
  emits ok_ev (n + k) (try_except m c h).
Proof.
  intros Hm Hh w. destruct (Hm w) as (e1 & E1 & Ha1 & Hp1).
  unfold try_except.
  destruct (m w) as [[a|e|] w']; cbn [snd] in *.
  - exists e1. repeat split; [done..|lia].
  - destruct (c e).
    + destruct (Hh e w') as (e2 & E2 & Ha2 & Hp2).
      exists (e1 ++ e2)%list. rewrite E2, E1, app_assoc, posts_app.
      repeat split; [by apply Forall_app|lia].
    + exists e1. repeat split; [done..|lia].
  - exists e1. repeat split; [done..|lia].
Qed.

Lemma emits_emit e : ok_ev e → emits ok_ev (posts [e]) (emit e).
Proof. intros He w. exists [e]. repeat split; [|done]. by constructor. Qed.

Lemma emits_on_files {A} (act : fs_action A) : emits ok_ev 0 (on_files act).
Proof.
  intros w. exists []. unfold on_files.
  destruct (act (files w)) as [[e|a] f']; cbn; by rewrite app_nil_r.
Qed.

Lemma emits_mkdir p : ok_ev (EMkdir p) → emits ok_ev 0 (mkdir p).
Proof.
  intros He. apply (emits_bind 0 0); [by apply (emits_emit (EMkdir p))|].
  intros _. apply emits_on_files.
Qed.

Lemma emits_rmtree p : ok_ev (ERmtree p) → emits ok_ev 0 (rmtree p).
Proof.
  intros He. apply (emits_bind 0 0); [by apply (emits_emit (ERmtree p))|].
  intros _. apply emits_on_files.
Qed.

Lemma emits_http rq :
  ok_ev (EHttp rq) → emits ok_ev (posts [EHttp rq]) (http rq).
Proof.
  intros He. rewrite <- (Nat.add_0_r (posts _)).
  apply emits_bind; [by apply emits_emit|]. intros _ w. exists [].
  destruct (serve (executor w) rq) as [[e|r] x']; cbn; by rewrite app_nil_r.
Qed.

Lemma emits_sleep t : ok_ev (ESleep t) → emits ok_ev 0 (sleep t).
Proof.
  intros He. unfold sleep. destruct (t <? 0); [apply emits_raise|].
  by apply (emits_emit (ESleep t)).
Qed.

Lemma emits_get v k : emits ok_ev 0 (get v k).
Proof. apply emits_of_sum. Qed.

Lemma emits_get2 v k1 k2 : emits ok_ev 0 (get2 v k1 k2).
Proof. apply (emits_bind 0 0); [apply emits_get|intros; apply emits_get]. Qed.

Lemma emits_json r : emits ok_ev 0 (json r).
Proof. apply emits_of_sum. Qed.

Lemma emits_message_block r :
  emits (A := unit) ok_ev 0
    (try_except
       (let* message := (let* b := json r in get b "Message") in
        raise (ProcessorExecuteError (PyVal message)))
       is_Exception
       (λ _, raise (ProcessorExecuteError (PyResponse r)))).
Proof.
  apply (emits_try 0 0); [|intros; apply emits_raise].
  apply (emits_bind 0 0); [|intros; apply emits_raise].
  apply (emits_bind 0 0); [apply emits_json|intros; apply emits_get].
Qed.

Lemma emits_poll self j fuel :
  ok_ev (ESleep (polling_time self)) →
  ok_ev (EHttp (poll_request self j)) →
  emits ok_ev 0 (poll self j fuel).
Proof.
  intros Hs Hg. induction fuel as [|fuel IH]; [apply emits_spin|].
  cbn [poll].
  apply (emits_bind 0 0); [by apply emits_sleep|intros _].
  apply (emits_bind 0 0); [by apply (emits_http (poll_request self j))|].
  intros r. apply (emits_bind 0 0).
  { destruct (negb (ok r)); [apply emits_message_block|apply emits_ret]. }
  intros _. apply (emits_bind 0 0); [apply emits_json|intros info].
  apply (emits_bind 0 0); [apply emits_get2|intros e].
  destruct (truthy e); [apply emits_ret|apply IH].
Qed.

Lemma emits_check info :
  (∀ msg, ok_ev (ELogError msg)) → emits ok_ev 0 (check_exit_code info).
Proof.
  intros Hl. unfold check_exit_code.
  apply (emits_bind 0 0); [apply emits_get2|intros c].
  destruct (ne_zero c); [|apply emits_ret].
  apply (emits_bind 0 0); [apply emits_get|intros ?].
  apply (emits_bind 0 0); [apply emits_get2|intros ?].
  apply (emits_bind 0 0); [apply emits_get2|intros ?].
  apply (emits_bind 0 0); [apply (emits_emit (ELogError _)), Hl|intros ?].
  apply (emits_bind 0 0); [apply emits_get|intros ?].
  apply (emits_bind 0 0); [apply emits_get2|intros ?].
  apply emits_raise.
Qed.
End Emits.

(** ** Results on every run *)

Section Runs.
Context `{rt : Runtime} `{ad : Adapter}.
Implicit Types (self : processor) (data info : value) (w : world).
Implicit Types (outputs : option value) (j : string) (r : response).

(** X1.  The calls [execute] makes.  Whatever the outcome, every external
    call of a run is one of the expected ones: [os.mkdir] and
    [shutil.rmtree] on the job's working directory, the POST of the
    submission, the log of a job failure and, in asynchronous mode only,
    sleeps of [polling_time] and GETs of the job info.  The job is
    submitted at most once. *)
Theorem execute_makes_expected_calls self data outputs fuel w j :
  bound_job_id self = Some j →
  ∃ evs, trace (execute self data outputs fuel w).2 = (trace w ++ evs)%list ∧
         Forall (expected_event self j) evs ∧ (posts evs ≤ 1)%nat.
Proof.
  intros Hjob. revert w.
  change (emits (expected_event self j) 1 (execute self data outputs fuel)).
  unfold execute. rewrite Hjob.
  apply (emits_bind _ 0 1); [by apply emits_mkdir|intros _].
  apply (emits_bind _ 0 1).
  { apply (emits_try _ 0 0); [apply emits_on_files|intros e].
    apply (emits_bind _ 0 0); [by apply emits_rmtree|intros _].
    apply emits_raise. }
  intros params.
  apply (emits_bind _ 1 0).
  { apply (emits_http _ (submit_request self j params)). by exists params. }
  intros r. apply (emits_bind _ 0 0).
  { destruct (negb (ok r)); [|apply emits_ret].
    apply (emits_try _ 0 0); [|intros; apply emits_raise].
    apply (emits_bind _ 0 0); [by apply emits_rmtree|intros _].
    apply (emits_bind _ 0 0); [|intros; apply emits_raise].
    apply (emits_bind _ 0 0); [apply emits_json|intros; apply emits_get]. }
  intros _. apply (emits_bind _ 0 0).
  { destruct (remote_execute_synch self) eqn:Hs; [apply emits_json|].
    apply emits_poll; cbn; by rewrite ?Hs. }
  intros info. apply (emits_bind _ 0 0); [by apply emits_check|intros _].
  apply (emits_bind _ 0 0); [apply emits_on_files|].
  intros [m o]. apply emits_ret.
Qed.

(** X2.  The frame of [execute].  With adapter methods that read and write
    below the working directory only, a run changes nothing outside the
    working directory, whatever its outcome. *)
Theorem execute_confined_to_working_dir self data outputs fuel w j :
  bound_job_id self = Some j →
  (∀ d o, confined (prepare_input d (working_dir_of self j) o)
            (working_dir_of self j)) →
  (∀ i o, confined (prepare_output i (working_dir_of self j) o)
            (working_dir_of self j)) →
  same_outside (working_dir_of self j) (files w)
    (files (execute self data outputs fuel w).2).
Proof.
  intros Hjob Hin Hout.
  apply (frame_execute (working_dir_of self j) self data outputs fuel);
    [|done..].
  intros j' Hj'. congruence.
Qed.
End Runs.

Section MoreRuns.
Context `{rt : Runtime} `{ad : Adapter}.
Implicit Types (self : processor) (data info : value) (w : world).
Implicit Types (outputs : option value) (j : string) (r : response).

(** A turn of the loop whose poll is answered with success. *)
Lemma poll_turn_ok self j fuel w r x' :
  0 ≤ polling_time self →
  serve (executor w) (poll_request self j) = (inr r, x') →
  ok r = true →
  poll self j (S fuel) w
  = match body r with
    | None =>
        (Raise JSONDecodeError,
         World _ (files w) x'
           (trace w ++ [ESleep (polling_time self);
                        EHttp (poll_request self j)]))
    | Some info =>
        match getitem2 info "job_info" "end_processing" with
        | inl e =>
            (Raise e,
             World _ (files w) x'
               (trace w ++ [ESleep (polling_time self);
                            EHttp (poll_request self j)]))
        | inr e =>
            if truthy e then
              (Return info,
               World _ (files w) x'
                 (trace w ++ [ESleep (polling_time self);
                              EHttp (poll_request self j)]))
            else
              poll self j fuel
                (World _ (files w) x'
                   (trace w ++ [ESleep (polling_time self);
                                EHttp (poll_request self j)]))
        end
    end.
Proof.
  intros Ht Es Hok.
  rewrite (poll_turn self j _ _ _ _ Ht Es), Hok. cbn [negb].
  unfold bind at 1, ret at 1. unfold bind at 1. rewrite json_eq.
  destruct (body r) as [info|]; [|done].
  unfold bind at 1. rewrite get2_eq.
  destruct (getitem2 info "job_info" "end_processing") as [|e]; [done|].
  by destruct (truthy e).
Qed.

(** One turn of the loop either ends it or leaves it one sleep and one
    GET later. *)
Lemma poll_turn_world self j fuel w :
  0 ≤ polling_time self →
  (∃ o x', poll self j (S fuel) w
           = (o, World _ (files w) x'
                   (trace w ++ [ESleep (polling_time self);
                                EHttp (poll_request self j)]))) ∨
  (∃ x', poll self j (S fuel) w
         = poll self j fuel
             (World _ (files w) x'
                (trace w ++ [ESleep (polling_time self);
                             EHttp (poll_request self j)]))).
Proof.
  intros Ht.
  destruct (serve (executor w) (poll_request self j)) as [[e|r] x'] eqn:Es.
  { left. exists (Raise e), x'. cbn [poll].
    rewrite (bind_Return _ _ _ _ _ (sleep_done self _ Ht)).
    set (w1 := World _ _ _ _).
    pose proof (http_raised (poll_request self j) w1 _ _ Es) as E.
    unfold poll_request in E at 1. rewrite (bind_Raise _ _ _ _ _ E).
    tidy. done. }
  destruct (ok r) eqn:Hok.
  2:{ left. destruct (poll_failed self j fuel w r x' Ht Es Hok) as (a & E & _).
      by eexists _, _. }
  rewrite (poll_turn_ok self j fuel w r x' Ht Es Hok).
  destruct (body r) as [info|]; [|left; by eexists _, _].
  destruct (getitem2 info "job_info" "end_processing") as [e|e];
    [left; by eexists _, _|].
  destruct (truthy e); [left; by eexists _, _|right; by eexists].
Qed.

(** X4.  The rhythm of the poll loop.  Whatever its outcome, the loop adds
    to the trace whole turns only, each a sleep of [polling_time] followed
    by one GET of the job info: no poll without its sleep before it. *)
Theorem poll_sleeps_before_every_request self j fuel : ∀ w,
  ∃ k, (k ≤ fuel)%nat ∧
       trace (poll self j fuel w).2
       = (trace w ++ poll_events k (polling_time self)
                       (poll_request self j))%list.
Proof.
  induction fuel as [|fuel IH]; intros w.
  { exists 0%nat. split; [done|]. cbn. by rewrite app_nil_r. }
  destruct (Z.ltb_spec (polling_time self) 0) as [Ht|Ht].
  { exists 0%nat. split; [lia|]. cbn [poll poll_events].
    unfold bind, sleep. destruct (Z.ltb_spec (polling_time self) 0); [|lia].
    cbn. by rewrite app_nil_r. }
  destruct (poll_turn_world self j fuel w Ht) as [(o & x' & ->)|(x' & ->)].
  - exists 1%nat. split; [lia|done].
  - destruct (IH (World _ (files w) x'
                    (trace w ++ [ESleep (polling_time self);
                                 EHttp (poll_request self j)])%list))
      as (k & Hk & ->).
    exists (S k). split; [lia|]. cbn [trace poll_events].
    by rewrite <- app_assoc.
Qed.

(** X8.  A success response that is not JSON.  In synchronous mode the
    body of the accepted submission is decoded outside any [try]: when
    that fails, [execute] raises the decoding error and the working
    directory stays. *)
Theorem undecodable_body_raises
    self data outputs fuel w j f1 params f2 r x1 :
  bound_job_id self = Some j →
  mkdir_fs (working_dir_of self j) (files w) = inr f1 →
  prepare_input data (working_dir_of self j) outputs f1 = (inr params, f2) →
  serve (executor w) (submit_request self j params) = (inr r, x1) →
  ok r = true →
  remote_execute_synch self = true →
  body r = None →
  execute self data outputs fuel w
  = (Raise JSONDecodeError,
     World _ f2 x1 (trace w ++ [EMkdir (working_dir_of self j);
                                EHttp (submit_request self j params)])).
Proof.
  intros Hjob Hmk Hin Hpost Hok Hsync Eb.
  apply (terminal_error_propagates self data outputs fuel w j f1 Hjob Hmk
           params f2 Hin r x1 Hpost Hok).
  unfold terminal_info. by rewrite Hsync, json_eq, Eb.
Qed.

(** X12.  A negative [polling_time].  In asynchronous mode [time.sleep]
    refuses it: once the job is submitted, [execute] raises [ValueError]
    before any poll, and the working directory stays. *)
Theorem negative_polling_time_raises
    self data outputs fuel w j f1 params f2 r x1 :
  bound_job_id self = Some j →
  mkdir_fs (working_dir_of self j) (files w) = inr f1 →
  prepare_input data (working_dir_of self j) outputs f1 = (inr params, f2) →
  serve (executor w) (submit_request self j params) = (inr r, x1) →
  ok r = true →
  remote_execute_synch self = false →
  polling_time self < 0 →
  execute self data outputs (S fuel) w
  = (Raise ValueError,
     World _ f2 x1 (trace w ++ [EMkdir (working_dir_of self j);
                                EHttp (submit_request self j params)])).
Proof.
  intros Hjob Hmk Hin Hpost Hok Hasync Ht.
  apply (terminal_error_propagates self data outputs (S fuel) w j f1 Hjob Hmk
           params f2 Hin r x1 Hpost Hok).
  unfold terminal_info. rewrite Hasync. cbn [poll].
  apply bind_Raise. unfold sleep.
  by destruct (Z.ltb_spec (polling_time self) 0); [|lia].
Qed.

(** X3.  All or nothing.  Where nothing exists yet at or below the working
    path and [prepare_input] writes below it only and leaves the directory
    in place, a run that fails in [prepare_input] or whose submission is
    rejected leaves the file system exactly as it found it. *)
Theorem failed_setup_restores_file_system
    self data outputs fuel w j f1 :
  bound_job_id self = Some j →
  mkdir_fs (working_dir_of self j) (files w) = inr f1 →
  (∀ q, working_dir_of self j `prefix_of` q → files w !! q = None) →
  confined (prepare_input data (working_dir_of self j) outputs)
    (working_dir_of self j) →
  preserves_dir (prepare_input data (working_dir_of self j) outputs)
    (working_dir_of self j) →
  (∀ e f2,
     prepare_input data (working_dir_of self j) outputs f1 = (inl e, f2) →
     (execute self data outputs fuel w).1 = Raise e ∧
     files (execute self data outputs fuel w).2 = files w) ∧
  (∀ params f2 r x1,
     prepare_input data (working_dir_of self j) outputs f1
     = (inr params, f2) →
     serve (executor w) (submit_request self j params) = (inr r, x1) →
     ok r = false →
     files (execute self data outputs fuel w).2 = files w).
Proof.
  intros Hjob Hmk Hfree Hc Hp.
  assert (∀ (r : exn + value) f2,
            prepare_input data (working_dir_of self j) outputs f1 = (r, f2) →
            after_rmtree (working_dir_of self j) f2 = files w) as Hback.
  { intros r f2 Hin. apply map_eq. intros q.
    destruct (decide (working_dir_of self j `prefix_of` q)) as [Hq|Hq].
    - transitivity (@None node); [|symmetry; exact (Hfree q Hq)].
      apply after_rmtree_gone; [|done].
      exact (created_dir_preserved _ _ _ _ _ _ Hmk Hin Hp).
    - transitivity (f2 !! q); [exact (after_rmtree_elsewhere _ _ q Hq)|].
      transitivity (f1 !! q); [exact (Hc _ _ _ Hin q Hq)|].
      apply mkdir_fs_created in Hmk as [_ ->].
      apply lookup_insert_ne. by intros <-. }
  split.
  - intros e f2 Hin.
    destruct (execute_input_raised self data outputs fuel w j Hjob f1 Hmk
                e f2 Hin) as (o & E & Ho).
    rewrite E. cbn [fst snd files]. split; [|by apply (Hback (inl e))].
    apply Ho. exact (created_dir_preserved _ _ _ _ _ _ Hmk Hin Hp).
  - intros params f2 r x1 Hin Hpost Hok.
    destruct (execute_rejected self data outputs fuel w j Hjob f1 Hmk
                params f2 r x1 Hin Hpost Hok) as (a & E & _).
    rewrite E. cbn [snd files]. by apply (Hback (inr params)).
Qed.

(** X13.  A missing or unusable root.  When the processor's root directory no
    longer exists, or is a regular file, [os.mkdir] of the working
    directory fails and [execute] raises that error with the file system
    untouched; no adapter method runs and nothing is sent. *)
Theorem root_directory_must_exist self data outputs fuel w j :
  bound_job_id self = Some j →
  private_processor_dir self ≠ [] →
  files w !! working_dir_of self j = None →
  files w !! private_processor_dir self ≠ Some Dir →
  ∃ e, execute self data outputs fuel w
       = (Raise e, World _ (files w) (executor w)
                     (trace w ++ [EMkdir (working_dir_of self j)]))
       ∧ (e = FileNotFoundError (working_dir_of self j) ∨
          e = NotADirectoryError (working_dir_of self j)).
Proof.
  intros Hjob Hroot Hwd Hdir.
  assert (parent (working_dir_of self j) = private_processor_dir self) as Ep.
  { unfold parent, working_dir_of. rewrite length_app. cbn [length].
    replace (length (private_processor_dir self) + 1 - 1)%nat
      with (length (private_processor_dir self)) by lia.
    by rewrite take_app_length. }
  assert (∃ e, mkdir_fs (working_dir_of self j) (files w) = inl e ∧
               (e = FileNotFoundError (working_dir_of self j) ∨
                e = NotADirectoryError (working_dir_of self j)))
    as (e & Em & He).
  { unfold mkdir_fs. rewrite Hwd, Ep. unfold path in *.
    destruct (private_processor_dir self) as [|s p] eqn:Ed; [done|].
    match goal with
    | |- context [match ?t with Some _ => _ | None => _ end] =>
        destruct t as [[|c]|] eqn:El
    end.
    - exfalso. apply Hdir. reflexivity.
    - eexists. split; [reflexivity|by right].
    - eexists. split; [reflexivity|by left]. }
  exists e. split; [|done].
  exact (execute_mkdir_raised self data outputs fuel w j Hjob e Em).
Qed.
End MoreRuns.

(** X14.  The base class on its own.  [BaseRemoteExecutionProcessor] leaves
    [prepare_input] unimplemented: a run on it raises
    [NotImplementedError], removes the working directory it has just made
    and sends nothing. *)
Theorem base_class_is_not_executable `{rt : Runtime}
    (self : processor) data outputs fuel (w : world) j f1 :
  bound_job_id self = Some j →
  mkdir_fs (working_dir_of self j) (files w) = inr f1 →
  @execute rt base_adapter self data outputs fuel w
  = (Raise NotImplementedError,
     World _ (after_rmtree (working_dir_of self j) f1) (executor w)
       (trace w ++ [EMkdir (working_dir_of self j);
                    ERmtree (working_dir_of self j)]))
  ∧ ∀ q, working_dir_of self j `prefix_of` q →
         after_rmtree (working_dir_of self j) f1 !! q = None.
Proof.
  intros Hjob Hmk.
  assert (f1 !! working_dir_of self j = Some Dir) as Hd.
  { apply mkdir_fs_created in Hmk as [_ ->]. apply lookup_insert_eq. }
  destruct (@execute_input_raised rt base_adapter self data outputs fuel w j
              Hjob f1 Hmk NotImplementedError f1 eq_refl) as (o & E & Ho).
  rewrite E, (Ho Hd). split; [done|]. by apply after_rmtree_gone.
Qed.

(** * The CONDUIT adapter *)

Lemma dict_get_set (a : list (string * value)) (k k' : string) (v : value) :
  dict_get (dict_set a k v) k'
  = if String.eqb k' k then Some v else dict_get a k'.
Proof.
  induction a as [|[k0 v0] a IH]; cbn [dict_set dict_get]; [done|].
  destruct (String.eqb_spec k k0) as [->|Hk]; cbn [dict_get].
  - by destruct (String.eqb k' k0).
  - rewrite IH. destruct (String.eqb_spec k' k0) as [->|]; [|done].
    by destruct (String.eqb_spec k0 k) as [->|].
Qed.

Lemma in_names_In (name : string) (names : list string) :
  in_names name names = true ↔ In name names.
Proof.
  unfold in_names. rewrite existsb_exists. split.
  - intros (x & Hx & E). by apply String.eqb_eq in E as ->.
  - intros H. exists name. split; [done|apply String.eqb_refl].
Qed.

Lemma dict_get_In (d : list (string * value)) (name : string) :
  In name (map fst d) → ∃ v, dict_get d name = Some v.
Proof.
  induction d as [|[k v] d IH]; cbn; [done|].
  destruct (String.eqb_spec name k) as [->|Hk]; [eauto|].
  intros [E|H]; [by subst|auto].
Qed.

Lemma positive_names_apart (name : string) :
  in_names name positive_names = true →
  in_names name fraction_names = false ∧ name ≠ "c".
Proof.
  intros H%in_names_In. cbn in H.
  repeat (destruct H as [<-|H]; [by split|]). done.
Qed.

Lemma fraction_names_apart (name : string) :
  in_names name fraction_names = true → name ≠ "c".
Proof.
  intros H%in_names_In. cbn in H.
  repeat (destruct H as [<-|H]; [done|]). done.
Qed.

Lemma check_component_ok (name : string) (v : value) :
  check_component name v = inr () ↔ component_ok name v.
Proof.
  unfold check_component, component_ok. split.
  - destruct v as [| | |x| | |]; try done. intros H. exists x. split; [done|].
    destruct (in_names name positive_names) eqn:Ep.
    { destruct (positive_names_apart name Ep) as [Ef Hc].
      rewrite Ef. destruct (SFleb x f_zero); try done; by repeat split. }
    destruct (in_names name fraction_names) eqn:Ef.
    { pose proof (fraction_names_apart name Ef) as Hc.
      destruct (SFltb f_zero x), (SFltb x f_one); try done; by repeat split. }
    destruct (String.eqb_spec name "c") as [->|Hc]; [|by repeat split].
    destruct (SFltb f_zero x), (SFltb x f_0_7); try done; by repeat split.
  - intros (x & -> & Hp & Hf & Hc).
    destruct (in_names name positive_names) eqn:Ep; [by rewrite Hp|].
    destruct (in_names name fraction_names) eqn:Ef.
    { by destruct (Hf eq_refl) as [-> ->]. }
    destruct (String.eqb_spec name "c") as [E|]; [|done].
    by destruct (Hc E) as [-> ->].
Qed.

Lemma component_loop_returns (d : list (string * value)) (names : list string) :
  ∀ acc,
    (∃ acc', component_loop d names acc = inr acc') ↔
    ∀ name, In name names →
            ∃ v, dict_get d name = Some v ∧ check_component name v = inr ().
Proof.
  induction names as [|name names IH]; intros acc; cbn [component_loop].
  { split; [by intros _ name []|eauto]. }
  split.
  - intros [acc' E] name' [<-|Hin];
      destruct (dict_get d name) as [v|]; try done;
      destruct (check_component name v) as [e|[]] eqn:Ec; try done.
    + eauto.
    + apply (IH (dict_set acc ("-" ++ name) v)); eauto.
  - intros Hall. destruct (Hall name (or_introl eq_refl)) as (v & -> & ->).
    apply IH. intros name' Hin. apply Hall. by right.
Qed.

Lemma dash_inj (a b : string) : "-" ++ a = "-" ++ b → a = b.
Proof. intros E. by injection E. Qed.

Lemma component_loop_keeps (d : list (string * value)) (names : list string) :
  ∀ acc acc' k,
    component_loop d names acc = inr acc' →
    (∀ name, In name names → k ≠ "-" ++ name) →
    dict_get acc' k = dict_get acc k.
Proof.
  induction names as [|name names IH]; intros acc acc' k;
    cbn [component_loop].
  { by intros [= ->] _. }
  destruct (dict_get d name) as [v|]; [|done].
  destruct (check_component name v) as [e|[]]; [done|].
  intros E Hk. rewrite (IH _ _ _ E); [|intros n Hn; apply Hk; by right].
  rewrite dict_get_set.
  destruct (String.eqb_spec k ("-" ++ name)) as [->|]; [|done].
  by destruct (Hk name (or_introl eq_refl)).
Qed.

Lemma component_loop_lookup (d : list (string * value)) (names : list string) :
  ∀ acc acc' name v,
    component_loop d names acc = inr acc' →
    In name names → dict_get d name = Some v →
    dict_get acc' ("-" ++ name) = Some v.
Proof.
  induction names as [|n names IH]; intros acc acc' name v;
    cbn [component_loop]; [done|].
  destruct (dict_get d n) as [v0|] eqn:En; [|done].
  destruct (check_component n v0) as [e|[]]; [done|].
  intros E Hin Hv.
  destruct (in_dec String.string_dec name names) as [Hr|Hr].
  { exact (IH _ _ _ _ E Hr Hv). }
  destruct Hin as [->|Hin]; [|done].
  rewrite (component_loop_keeps _ _ _ _ _ E).
  - rewrite dict_get_set, String.eqb_refl. congruence.
  - intros n' Hn' Heq. apply dash_inj in Heq. by subst.
Qed.

Lemma has_key_keys (d : list (string * value)) (name : string) :
  has_key (map (λ kv, VStr kv.1) d) name = true ↔ In name (map fst d).
Proof.
  unfold has_key. rewrite existsb_exists. split.
  - intros (x & Hx & E). apply in_map_iff in Hx as ([k v] & <- & Hkv).
    cbn in E. apply String.eqb_eq in E as ->.
    apply in_map_iff. by exists (name, v).
  - intros Hin. apply in_map_iff in Hin as ([k v] & <- & Hkv).
    exists (VStr k). split; [|apply String.eqb_refl].
    apply in_map_iff. by exists (k, v).
Qed.

Lemma forallb_has_key (d : list (string * value)) (names : list string) :
  forallb (has_key (map (λ kv, VStr kv.1) d)) names = true ↔
  ∀ name, In name names → In name (map fst d).
Proof.
  rewrite forallb_forall. split; intros H name Hn.
  - apply has_key_keys. by apply H.
  - apply has_key_keys. by apply H.
Qed.

Section Conduit.
Context `{tx : Texts}.

Local Abbreviation keys_of d :=
  (map (λ kv : string * value, VStr kv.1) d).

(** The statements after the [try] block let a [dict] of components
    through exactly when it is one of [components_ok]. *)
Lemma conduit_components_returns (d : list (string * value)) :
  (∃ params, conduit_components (VDict d) = inr params) ↔ components_ok d.
Proof.
  unfold conduit_components, components_ok. cbn [py_set].
  destruct (forallb (has_key (keys_of d)) required_key_set) eqn:Hreq; cbn [negb].
  2:{ split; [by intros []|]. intros (H & _).
      pose proof (proj2 (forallb_has_key d required_key_set) H). congruence. }
  pose proof (proj1 (forallb_has_key d required_key_set) Hreq) as Hreq'.
  assert (existsb (has_key (keys_of d)) optional_key_set
          && negb (forallb (has_key (keys_of d)) optional_key_set) = false
          ↔ (In "c" (map fst d) ↔ In "den" (map fst d))) as Hopt.
  { cbn [existsb forallb optional_key_set].
    pose proof (has_key_keys d "c") as Hc.
    pose proof (has_key_keys d "den") as Hd.
    destruct (has_key _ "c"), (has_key _ "den"); cbn;
      split; try done; intros H; try tauto; exfalso.
    - assert (true = true) as E by done. apply Hc, H, Hd in E. done.
    - assert (true = true) as E by done. apply Hd, H, Hc in E. done. }
  destruct (existsb (has_key (keys_of d)) optional_key_set
            && negb (forallb (has_key (keys_of d)) optional_key_set)) eqn:Eo.
  { split; [by intros []|]. intros (_ & H & _). apply Hopt in H. done. }
  set (allowed := (required_key_set ++ optional_key_set
                   ++ default_key_set)%list).
  destruct (filter (λ v, one_of allowed v = false) (keys_of d)) as [|x xs] eqn:Ex.
  2:{ split.
      - intros [params E]. by destruct (forallb is_str (x :: xs)).
      - intros (_ & _ & H & _). exfalso.
        assert (x ∈ filter (λ v, one_of allowed v = false) (keys_of d)) as Hx
          by (rewrite Ex; left).
        apply list_elem_of_filter in Hx as [Hx1 Hx2].
        apply list_elem_of_In, in_map_iff in Hx2 as ([k v] & <- & Hkv).
        change (existsb (String.eqb k) allowed = false) in Hx1.
        assert (In k (map fst d)) as Hk
          by (apply in_map_iff; by exists (k, v)).
        apply H, in_names_In in Hk. unfold in_names in Hk. congruence. }
  assert (∀ name, In name (map fst d) → In name allowed) as Hall.
  { intros name Hn. apply in_names_In. unfold in_names.
    destruct (existsb (String.eqb name) allowed) eqn:E; [done|exfalso].
    apply in_map_iff in Hn as ([k v] & <- & Hkv).
    assert (VStr k ∈ filter (λ v, one_of allowed v = false) (keys_of d)) as Hx.
    { apply list_elem_of_filter. split; [exact E|].
      apply list_elem_of_In, in_map_iff. by exists (k, v). }
    rewrite Ex in Hx. by apply not_elem_of_nil in Hx. }
  pose proof (component_loop_returns d (map fst d) []) as Hloop.
  split.
  - intros [params E].
    destruct (component_loop d (map fst d) []) as [e|acc] eqn:El; [done|].
    split; [done|]. split; [by apply Hopt|]. split; [done|].
    intros name Hn. destruct (proj1 Hloop (ex_intro _ acc eq_refl) name Hn)
      as (v & Hv & Hc).
    exists v. split; [done|]. by apply check_component_ok.
  - intros (_ & _ & _ & Hval).
    destruct (proj2 Hloop) as [acc ->]; [|eauto].
    intros name Hn. destruct (Hval name Hn) as (v & Hv & Hc).
    exists v. split; [done|]. by apply check_component_ok.
Qed.
End Conduit.

Lemma conduit_components_dict `{Texts} (c params : value) :
  conduit_components c = inr params → ∃ d, c = VDict d.
Proof.
  unfold conduit_components. destruct (py_set c) as [e|keys]; [done|].
  destruct (negb _); [done|]. destruct (_ && _); [done|].
  destruct (filter _ keys) as [|x xs].
  - destruct c; try done. eauto.
  - by destruct (forallb is_str (x :: xs)).
Qed.

Lemma retouch_keys g d : map fst (retouch g d) = map fst d.
Proof.
  unfold retouch. induction d as [|[k v] d IH]; [done|]. cbn [map].
  rewrite IH. cbn [fst]. by destruct (in_names k _).
Qed.

Lemma retouch_get g d name v :
  dict_get d name = Some v →
  dict_get (retouch g d) name
  = Some (if in_names name ["na2o"; "h2o"] then VFloat (g name) else v).
Proof.
  unfold retouch. induction d as [|[k v0] d IH]; [done|]. cbn [map dict_get fst].
  destruct (String.eqb_spec name k) as [->|Hk].
  - intros [= ->]. destruct (in_names k _); cbn [dict_get fst];
      by rewrite String.eqb_refl.
  - intros Hv. destruct (in_names k _); cbn [dict_get];
      destruct (String.eqb_spec name k); try done; by apply IH.
Qed.

Lemma retouch_ok g d : components_ok d → components_ok (retouch g d).
Proof.
  intros (Hreq & Hopt & Hall & Hval).
  unfold components_ok. rewrite retouch_keys.
  split; [done|]. split; [done|]. split; [done|].
  intros name Hn. destruct (Hval name Hn) as (v & Hv & Hc).
  rewrite (retouch_get g d name v Hv).
  destruct (in_names name ["na2o"; "h2o"]) eqn:E; [|eauto].
  eexists. split; [done|]. exists (g name). split; [done|].
  apply in_names_In in E. cbn in E.
  destruct E as [<-|[<-|[]]]; repeat split; done.
Qed.

Section ConduitAdapter.
Context `{tx : Texts}.
Implicit Types (data params : value) (outputs : option value) (f : fs).

Lemma conduit_outputs_checked data working_dir outputs f :
  (∃ e, (conduit_prepare_input data working_dir outputs f).1 = inl e ∧
        ¬ outputs_ok outputs) ∨
  (outputs_ok outputs ∧
   conduit_prepare_input data working_dir outputs f
   = match getitem2 data "components" "value" with
     | inl err =>
         (inl (pee ("Input not correctly formatted: " ++ str_exn err
                    ++ "'.")), f)
     | inr components => (conduit_components components, f)
     end).
Proof.
  unfold conduit_prepare_input, outputs_ok.
  destruct outputs as [o|]; [|by right].
  destruct (truthy o); [|by right].
  destruct (py_set o) as [e|names].
  { left. exists e. split; [done|]. intros H.
    by destruct (H eq_refl) as (? & ? & _). }
  destruct (existsb _ names) eqn:E.
  - left. eexists. split; [done|]. intros H.
    destruct (H eq_refl) as (names' & [= <-] & Hall).
    apply existsb_exists in E as (v & Hv & Hn).
    rewrite (Hall v Hv) in Hn. done.
  - right. split; [|done]. intros _. exists names. split; [done|].
    intros v Hv. destruct (one_of conduit_outputs v) eqn:Ev; [done|].
    assert (existsb (λ v, negb (one_of conduit_outputs v)) names = true)
      as E'; [|congruence].
    apply existsb_exists. exists v. by rewrite Ev.
Qed.

(** X18.  Which requests CONDUIT accepts.  [prepare_input] returns exactly
    when the output selection names declared outputs only and
    [data['components']['value']] is a [dict] with every required key,
    the optional keys [c] and [den] both or neither, no key beyond these
    and [f], and every value a float in the range tested for its name. *)
Theorem conduit_accepts_exactly data working_dir outputs f :
  (∃ params, (conduit_prepare_input data working_dir outputs f).1
             = inr params) ↔
  outputs_ok outputs ∧
  ∃ d, getitem2 data "components" "value" = inr (VDict d) ∧ components_ok d.
Proof.
  destruct (conduit_outputs_checked data working_dir outputs f)
    as [(e & E & Hno)|[Hok ->]].
  { rewrite E. split; [by intros []|]. by intros [? _]. }
  destruct (getitem2 data "components" "value") as [err|c]; cbn [fst].
  { split; [by intros []|]. by intros (_ & ? & ? & _). }
  split.
  - intros [params E]. split; [done|].
    destruct (conduit_components_dict c params E) as [d ->].
    exists d. split; [done|]. apply conduit_components_returns. eauto.
  - intros (_ & d & [= ->] & Hd). by apply conduit_components_returns.
Qed.

(** X19.  What CONDUIT hands to the executor.  The parameters returned hold
    every component under its name with a leading dash, [-f] with the
    given value or [1.0e8] when [f] was left out, and nothing else; the
    file system is not touched. *)
Theorem conduit_parameters data working_dir outputs f params f' :
  conduit_prepare_input data working_dir outputs f = (inr params, f') →
  f' = f ∧
  ∃ d ps,
    getitem2 data "components" "value" = inr (VDict d) ∧
    params = VDict ps ∧
    (∀ name v, dict_get d name = Some v →
               dict_get ps ("-" ++ name) = Some v) ∧
    dict_get ps "-f"
    = Some (match dict_get d "f" with
            | Some v => v
            | None => VFloat f_1e8
            end) ∧
    (∀ k v, dict_get ps k = Some v →
            k = "-f" ∨ ∃ name, k = "-" ++ name ∧ dict_get d name = Some v).
Proof.
  intros E.
  destruct (conduit_outputs_checked data working_dir outputs f)
    as [(e & E' & _)|[_ E']]; rewrite E in E'; [done|].
  destruct (getitem2 data "components" "value") as [err|c]; [done|].
  injection E' as E' <-. split; [done|]. symmetry in E'.
  destruct (conduit_components_dict c params E') as [d ->].
  exists d. revert E'. unfold conduit_components. cbn [py_set].
  destruct (negb _); [done|]. destruct (_ && _); [done|].
  destruct (filter _ _) as [|x xs]; [|by destruct (forallb is_str _)].
  destruct (component_loop d (map fst d) []) as [e|acc] eqn:El; [done|].
  intros [= <-]. eexists. split; [done|]. split; [done|].
  assert (∀ name v, dict_get d name = Some v → In name (map fst d)) as Hin.
  { clear. intros name v. induction d as [|[k v0] d IH]; [done|]. cbn.
    destruct (String.eqb_spec name k) as [->|]; [by left|]. right. auto. }
  assert (∀ k, (∀ name, In name (map fst d) → k ≠ "-" ++ name) →
               dict_get acc k = None) as Hnone.
  { intros k Hk. by rewrite (component_loop_keeps _ _ _ _ k El Hk). }
  assert (∀ k v, dict_get acc k = Some v →
                 ∃ name, k = "-" ++ name ∧ dict_get d name = Some v) as Hback.
  { intros k v Hv.
    destruct (decide (Exists (λ name, k = "-" ++ name) (map fst d)))
      as [Hex|Hno].
    - apply Exists_exists in Hex as (name & Hn & ->). exists name.
      apply list_elem_of_In in Hn. split; [done|]. destruct (dict_get_In d name Hn) as [v' Hv'].
      rewrite (component_loop_lookup _ _ _ _ _ _ El Hn Hv') in Hv. congruence.
    - rewrite Hnone in Hv; [done|]. intros name Hn ->. apply Hno.
      apply Exists_exists. exists name. by rewrite list_elem_of_In. }
  assert (dict_get acc "-f"
          = match dict_get d "f" with Some v => Some v | None => None end)
    as Hf.
  { destruct (dict_get d "f") as [v|] eqn:Ef.
    - exact (component_loop_lookup _ _ _ _ "f" v El (Hin _ _ Ef) Ef).
    - destruct (dict_get acc "-f") as [v|] eqn:Ea; [|done].
      destruct (Hback _ _ Ea) as (name & Hn & Hv).
      apply (dash_inj "f" name) in Hn as <-. congruence. }
  destruct (dict_get acc "-f") as [v0|] eqn:Ea.
  - split; [|split].
    + intros name v Hv.
      exact (component_loop_lookup _ _ _ _ _ _ El (Hin _ _ Hv) Hv).
    + rewrite Ea. by destruct (dict_get d "f"); simplify_eq.
    + intros k v Hv. right. by apply Hback.
  - split; [|split].
    + intros name v Hv. rewrite dict_get_set.
      destruct (String.eqb_spec ("-" ++ name) "-f") as [Heq|_].
      { apply (dash_inj name "f") in Heq as ->. rewrite Hv in Hf. done. }
      exact (component_loop_lookup _ _ _ _ _ _ El (Hin _ _ Hv) Hv).
    + rewrite dict_get_set. cbn. by destruct (dict_get d "f").
    + intros k v. rewrite dict_get_set.
      destruct (String.eqb_spec k "-f") as [->|_]; [by left|].
      intros Hv. right. by apply Hback.
Qed.

(** X20.  [na2o] and [h2o] go unchecked.  The loop tests the mass fractions
    under the names [nao2] and [h20], which no accepted request can hold:
    whenever a request is accepted, it is accepted again with any floats
    whatever in place of its [na2o] and [h2o]. *)
Theorem conduit_skips_na2o_and_h2o
    data data' working_dir outputs f d (g : string → spec_float) :
  getitem2 data "components" "value" = inr (VDict d) →
  getitem2 data' "components" "value" = inr (VDict (retouch g d)) →
  (∃ params, (conduit_prepare_input data working_dir outputs f).1
             = inr params) →
  ∃ params', (conduit_prepare_input data' working_dir outputs f).1
             = inr params'.
Proof.
  intros Ed Ed' Hacc.
  destruct (conduit_outputs_checked data working_dir outputs f)
    as [(e & E & _)|[Hok E]]; rewrite E in Hacc; [by destruct Hacc|].
  rewrite Ed in Hacc. cbn [fst] in Hacc.
  apply conduit_components_returns, (retouch_ok g),
    conduit_components_returns in Hacc.
  destruct (conduit_outputs_checked data' working_dir outputs f)
    as [(e & _ & Hno)|[_ ->]]; [done|].
  by rewrite Ed'.
Qed.

(** X21.  Undeclared outputs.  An output selection that is a [dict] with a
    key other than the four declared outputs is refused before the inputs
    are looked at. *)
Theorem conduit_refuses_unknown_outputs data working_dir o k f :
  In k (map fst o) → ¬ In k conduit_outputs →
  conduit_prepare_input data working_dir (Some (VDict o)) f
  = (inl (pee "Outputs contains unexpected parameters."), f).
Proof.
  intros Hk Hno. unfold conduit_prepare_input.
  assert (truthy (VDict o) = true) as -> by (by destruct o).
  cbn [py_set].
  assert (existsb (λ v, negb (one_of conduit_outputs v))
            (map (λ kv, VStr kv.1) o) = true) as ->; [|done].
  apply existsb_exists. exists (VStr k). split.
  - apply in_map_iff in Hk as ([k' v] & <- & Hkv).
    apply in_map_iff. by exists (k', v).
  - change (negb (in_names k conduit_outputs) = true).
    destruct (in_names k conduit_outputs) eqn:E; [|done].
    by apply in_names_In in E.
Qed.

(** X22.  Components that are no collection.  When
    [data['components']['value']] is [None], a [bool] or a number,
    [set(components)] raises outside the [try] block: the caller gets a
    [TypeError], not the [ProcessorExecuteError] of a refused input. *)
Theorem conduit_components_must_be_iterable data working_dir outputs f c :
  outputs_ok outputs →
  getitem2 data "components" "value" = inr c →
  py_set c = inl TypeError →
  conduit_prepare_input data working_dir outputs f = (inl TypeError, f).
Proof.
  intros Hok Ec Hc.
  destruct (conduit_outputs_checked data working_dir outputs f)
    as [(e & _ & Hno)|[_ ->]]; [done|].
  rewrite Ec. unfold conduit_components. by rewrite Hc.
Qed.
End ConduitAdapter.

(** * Adapters inside [execute] *)

Section AdaptersInExecute.
Context `{rt : Runtime}.
Implicit Types (self : processor) (data : value) (w : world).
Implicit Types (outputs : option value) (j : string).

(** A run whose [prepare_input] raises without having touched the file
    system, where nothing existed at or below the working path: the error
    is raised as it is and the file system is the one found. *)
Lemma clean_refusal (ad : Adapter) self data outputs fuel w j f1 e :
  bound_job_id self = Some j →
  mkdir_fs (working_dir_of self j) (files w) = inr f1 →
  (∀ q, working_dir_of self j `prefix_of` q → files w !! q = None) →
  prepare_input data (working_dir_of self j) outputs f1 = (inl e, f1) →
  @execute rt ad self data outputs fuel w
  = (Raise e, World _ (files w) (executor w)
                (trace w ++ [EMkdir (working_dir_of self j);
                             ERmtree (working_dir_of self j)])).
Proof.
  intros Hjob Hmk Hfree Hin.
  assert (f1 !! working_dir_of self j = Some Dir) as Hd.
  { pose proof Hmk as Hmk'. apply mkdir_fs_created in Hmk' as [_ ->].
    apply lookup_insert_eq. }
  destruct (@execute_input_raised rt ad self data outputs fuel w j
              Hjob f1 Hmk e f1 Hin) as (o & E & Ho).
  rewrite E, (Ho Hd). do 2 f_equal. apply map_eq. intros q.
  destruct (decide (working_dir_of self j `prefix_of` q)) as [Hq|Hq].
  - transitivity (@None node); [|symmetry; exact (Hfree q Hq)].
    by apply after_rmtree_gone.
  - transitivity (f1 !! q); [exact (after_rmtree_elsewhere _ _ q Hq)|].
    apply mkdir_fs_created in Hmk as [_ ->].
    apply lookup_insert_ne. by intros <-.
Qed.

(** X23.  A request CONDUIT refuses.  With [ConduitProcessor.prepare_input]
    as the adapter's method, a refused request makes [execute] raise the
    adapter's error with the file system exactly as it was found; nothing
    is sent to the executor. *)
Theorem conduit_refusal_is_clean `{tx : Texts} (ad : Adapter)
    self data outputs fuel w j f1 e :
  @prepare_input ad = conduit_prepare_input →
  bound_job_id self = Some j →
  mkdir_fs (working_dir_of self j) (files w) = inr f1 →
  (∀ q, working_dir_of self j `prefix_of` q → files w !! q = None) →
  (conduit_prepare_input data (working_dir_of self j) outputs f1).1 = inl e →
  @execute rt ad self data outputs fuel w
  = (Raise e, World _ (files w) (executor w)
                (trace w ++ [EMkdir (working_dir_of self j);
                             ERmtree (working_dir_of self j)])).
Proof.
  intros Had Hjob Hmk Hfree He.
  apply (clean_refusal ad self data outputs fuel w j f1 e Hjob Hmk Hfree).
  rewrite Had.
  destruct (conduit_prepare_input data (working_dir_of self j) outputs f1)
    as [r f'] eqn:E. cbn in He. subst r. f_equal.
  assert ((conduit_prepare_input data (working_dir_of self j) outputs f1).2
          = f1) as E2.
  { unfold conduit_prepare_input.
    repeat match goal with |- context [match ?t with _ => _ end] =>
      destruct t end; done. }
  by rewrite E in E2.
Qed.

(** X24.  The SOLWCAD processor of [solwcad.py].  Its two-parameter
    [prepare_input] cannot take the three arguments [execute] passes: every
    run raises [TypeError], removes the working directory it has just made
    and sends nothing. *)
Theorem solwcad_is_not_executable self data outputs fuel w j f1 :
  bound_job_id self = Some j →
  mkdir_fs (working_dir_of self j) (files w) = inr f1 →
  (∀ q, working_dir_of self j `prefix_of` q → files w !! q = None) →
  @execute rt solwcad_adapter self data outputs fuel w
  = (Raise TypeError,
     World _ (files w) (executor w)
       (trace w ++ [EMkdir (working_dir_of self j);
                    ERmtree (working_dir_of self j)])).
Proof.
  intros Hjob Hmk Hfree.
  by apply (clean_refusal solwcad_adapter self data outputs fuel w j f1).
Qed.

(** X25.  The SOLWCAD processor of [solwcad_new.py].  Its [prepare_input]
    never returns: a request that does not parse is refused, and any
    other request runs into the unbound name [swinput].  Every run of
    [execute] on it raises, with the file system as it was found and
    nothing sent. *)
Theorem solwcad_new_is_not_executable `{tx : Texts} (ad : Adapter)
    self data outputs fuel w j f1 :
  @prepare_input ad = solwcad_new_prepare_input →
  bound_job_id self = Some j →
  mkdir_fs (working_dir_of self j) (files w) = inr f1 →
  (∀ q, working_dir_of self j `prefix_of` q → files w !! q = None) →
  ∃ e, @execute rt ad self data outputs fuel w
       = (Raise e, World _ (files w) (executor w)
                     (trace w ++ [EMkdir (working_dir_of self j);
                                  ERmtree (working_dir_of self j)]))
       ∧ (e = name_error ∨ ∃ msg, e = pee msg).
Proof.
  intros Had Hjob Hmk Hfree.
  assert (∃ e, solwcad_new_prepare_input data (working_dir_of self j)
                 outputs f1 = (inl e, f1) ∧
               (e = name_error ∨ ∃ msg, e = pee msg)) as (e & E & He).
  { unfold solwcad_new_prepare_input.
    match goal with |- context [match ?t with inl _ => _ | inr _ => _ end] =>
      destruct t end; eexists; (split; [reflexivity|]); eauto. }
  exists e. split; [|done].
  apply (clean_refusal ad self data outputs fuel w j f1 e Hjob Hmk Hfree).
  by rewrite Had.
Qed.
End AdaptersInExecute.

(** * The initialiser *)

Section Init.
Context `{rt : Runtime} `{hs : Host}.
Implicit Types (processor_def : list (string * value)) (w : world).

(** X15.  A configuration without its directory.  When
    [private_processor_dir] is [None], [__init__] raises a
    [ProcessorGenericError] before it touches the file system. *)
Theorem init_needs_a_directory processor_def w u :
  base_init processor_def = inr () →
  dict_get processor_def "private_processor_dir" = Some VNone →
  dict_get processor_def "url_executor" = Some u →
  init processor_def w
  = (Raise (ProcessorGenericError (PyVal (VStr undefined_dir))), w).
Proof.
  intros Hb Hd Hu. unfold init, bind, dict_item. rewrite Hb, Hd, Hu. done.
Qed.

(** X16.  A root that is already there.  Whatever exists at the configured
    path, a directory or a regular file, [os.mkdir] raising
    [FileExistsError] is passed over: [__init__] returns and leaves the
    file system as it is. *)
Theorem init_accepts_an_existing_root processor_def w s u n :
  base_init processor_def = inr () →
  dict_get processor_def "private_processor_dir" = Some (VStr s) →
  dict_get processor_def "url_executor" = Some u →
  u ≠ VNone →
  files w !! to_path s = Some n →
  init processor_def w
  = (Return (Attributes (to_path s) u
               (dict_get_default processor_def "polling_time" (VInt 3))
               (dict_get_default processor_def "remote_execute_synch"
                  (VBool true))),
     World _ (files w) (executor w) (trace w ++ [EMkdir (to_path s)])).
Proof.
  intros Hb Hd Hu Hnone Hn. unfold init, dict_item. rewrite Hb, Hd, Hu.
  cbn [of_sum]. unfold bind at 1, ret at 1. unfold bind at 1, ret at 1.
  unfold bind at 1, ret at 1.
  pose proof (mkdir_raised (to_path s) w _ (mkdir_fs_exists _ _ _ Hn)) as E.
  rewrite (bind_Return _ _ _ _ _
             (try_caught _ is_FileExistsError (λ _, ret ()) _ _ _ E eq_refl)).
  by destruct u.
Qed.

(** X17.  A configuration without its URL.  [url_executor] is tested only
    after [os.mkdir]: when it is [None], [__init__] raises a
    [ProcessorGenericError] and the root directory it has just created
    stays. *)
Theorem init_makes_the_root_before_the_url_check processor_def w s f1 :
  base_init processor_def = inr () →
  dict_get processor_def "private_processor_dir" = Some (VStr s) →
  dict_get processor_def "url_executor" = Some VNone →
  mkdir_fs (to_path s) (files w) = inr f1 →
  init processor_def w
  = (Raise (ProcessorGenericError (PyVal (VStr undefined_url))),
     World _ f1 (executor w) (trace w ++ [EMkdir (to_path s)]))
  ∧ f1 !! to_path s = Some Dir.
Proof.
  intros Hb Hd Hu Hmk. split.
  - unfold init, dict_item. rewrite Hb, Hd, Hu.
    cbn [of_sum]. unfold bind at 1, ret at 1. unfold bind at 1, ret at 1.
    unfold bind at 1, ret at 1.
    by rewrite (bind_Return _ _ _ _ _
                  (try_Return _ is_FileExistsError (λ _, ret ()) _ _ _
                     (mkdir_done (to_path s) w f1 Hmk))).
  - apply mkdir_fs_created in Hmk as [_ ->]. apply lookup_insert_eq.
Qed.
End Init.

(** * Worked examples for the further properties *)

Lemma staging_input_confined (data : value) (p : path)
    (outputs : option value) :
  confined (@prepare_input staging_adapter data p outputs) p.
Proof.
  intros f r f' E q Hq. cbn in E.
  assert (f' = <[(p ++ ["input.txt"])%list := File "staged"]> f) as ->
    by (destruct data; by simplify_eq).
  apply lookup_insert_ne. intros <-. apply Hq. by exists ["input.txt"].
Qed.

Lemma staging_output_confined (info : value) (p : path)
    (outputs : option value) :
  confined (@prepare_output staging_adapter info p outputs) p.
Proof. intros f r f' E q Hq. cbn in E. by simplify_eq. Qed.

Lemma demo_dir_free (q : path) : demo_dir `prefix_of` q → demo_files !! q = None.
Proof.
  intros [k ->]. unfold demo_files.
  rewrite lookup_insert_ne; [|done]. by rewrite lookup_singleton_ne.
Qed.

Lemma execute_makes_expected_calls_witness :
  ∃ evs,
    trace (@execute scripted staging_adapter
             (demo_processor false (Some "abc123")) (VDict []) None 5
             (demo_world [inr accepted; inr running; inr boom])).2
    = ([] ++ evs)%list ∧
    Forall (@expected_event scripted (demo_processor false (Some "abc123"))
              "abc123") evs ∧
    (posts evs ≤ 1)%nat.
Proof.
  apply (execute_makes_expected_calls (rt := scripted) (ad := staging_adapter)
           (demo_processor false (Some "abc123")) (VDict []) None 5%nat
           (demo_world [inr accepted; inr running; inr boom]) "abc123").
  reflexivity.
Defined.

Lemma execute_confined_to_working_dir_witness :
  same_outside demo_dir demo_files
    (files (@execute scripted staging_adapter
              (demo_processor true (Some "abc123")) (VDict []) None 0
              (demo_world [inr succeeded])).2).
Proof.
  apply (execute_confined_to_working_dir
           (rt := scripted) (ad := staging_adapter)
           (demo_processor true (Some "abc123")) (VDict []) None 0%nat
           (demo_world [inr succeeded]) "abc123").
  - reflexivity.
  - intros d o. apply staging_input_confined.
  - intros i o. apply staging_output_confined.
Defined.

Lemma negative_polling_time_raises_witness :
  @execute scripted staging_adapter impatient_processor (VDict []) None 1
    (demo_world [inr accepted; inr boom])
  = (Raise ValueError,
     @World scripted demo_staged [inr boom]
       [EMkdir demo_dir; EHttp (demo_submit false)]).
Proof.
  apply (negative_polling_time_raises (rt := scripted) (ad := staging_adapter)
           impatient_processor (VDict []) None 0%nat
           (demo_world [inr accepted; inr boom]) "abc123" demo_made
           (VDict []) demo_staged accepted [inr boom]);
    try reflexivity.
Defined.

Lemma failed_setup_restores_file_system_witness :
  (@execute scripted staging_adapter (demo_processor true (Some "abc123"))
     (VStr "oops") None 0 (demo_world [inr succeeded])).1
  = Raise (ProcessorExecuteError (PyVal (VStr "bad request")))
  ∧ files (@execute scripted staging_adapter
             (demo_processor true (Some "abc123")) (VStr "oops") None 0
             (demo_world [inr succeeded])).2
    = demo_files.
Proof.
  destruct (failed_setup_restores_file_system
              (rt := scripted) (ad := staging_adapter)
              (demo_processor true (Some "abc123")) (VStr "oops") None 0%nat
              (demo_world [inr succeeded]) "abc123" demo_made)
    as [H _].
  - reflexivity.
  - reflexivity.
  - apply demo_dir_free.
  - apply staging_input_confined.
  - apply staging_input_preserves.
  - apply (H _ demo_staged). reflexivity.
Defined.

Lemma root_directory_must_exist_witness :
  ∃ e,
    @execute scripted staging_adapter (demo_processor true (Some "abc123"))
      (VDict []) None 0 (@World scripted ∅ [inr succeeded] [])
    = (Raise e, @World scripted ∅ [inr succeeded] [EMkdir demo_dir])
    ∧ (e = FileNotFoundError demo_dir ∨ e = NotADirectoryError demo_dir).
Proof.
  apply (root_directory_must_exist (rt := scripted) (ad := staging_adapter)
           (demo_processor true (Some "abc123")) (VDict []) None 0%nat
           (@World scripted ∅ [inr succeeded] []) "abc123");
    [reflexivity|discriminate|reflexivity|discriminate].
Defined.

Lemma base_class_is_not_executable_witness :
  (@execute scripted base_adapter (demo_processor true (Some "abc123"))
     (VDict []) None 0 (demo_world [inr succeeded])).1
  = Raise NotImplementedError.
Proof.
  destruct (base_class_is_not_executable (rt := scripted)
              (demo_processor true (Some "abc123")) (VDict []) None 0%nat
              (demo_world [inr succeeded]) "abc123" demo_made
              eq_refl eq_refl) as [E _].
  by rewrite E.
Defined.

Lemma input_error_masked_witness :
  ∃ e',
    @execute scripted careless_adapter (demo_processor true (Some "abc123"))
      (VDict []) None 0 (demo_world [inr succeeded])
    = (Raise e',
       @World scripted (delete demo_dir demo_made) [inr succeeded]
         [EMkdir demo_dir; ERmtree demo_dir])
    ∧ (e' = FileNotFoundError demo_dir ∨ e' = NotADirectoryError demo_dir).
Proof.
  apply (input_error_masked (rt := scripted) (ad := careless_adapter)
           (demo_processor true (Some "abc123")) (VDict []) None 0%nat
           (demo_world [inr succeeded]) "abc123" demo_made eq_refl eq_refl
           ValueError (delete demo_dir demo_made) eq_refl).
  change (working_dir_of (demo_processor true (Some "abc123")) "abc123")
    with demo_dir.
  by rewrite lookup_delete_eq.
Defined.

Lemma transport_error_leaves_staged_files_witness :
  @execute scripted staging_adapter (demo_processor true (Some "abc123"))
    (VDict []) None 0 (demo_world [inl connection_error])
  = (Raise connection_error,
     @World scripted demo_staged []
       [EMkdir demo_dir; EHttp (demo_submit true)]).
Proof.
  exact (transport_error_leaves_staged_files (rt := scripted) (ad := staging_adapter)
           (demo_processor true (Some "abc123")) (VDict []) None 0%nat
           (demo_world [inl connection_error]) "abc123" demo_made
           eq_refl eq_refl (VDict []) demo_staged eq_refl
           connection_error [] eq_refl).
Defined.

Lemma missing_exit_code_raises_witness :
  @execute scripted staging_adapter (demo_processor true (Some "abc123"))
    (VDict []) None 0 (demo_world [inr accepted])
  = (Raise (KeyError "job_info"),
     @World scripted demo_staged []
       [EMkdir demo_dir; EHttp (demo_submit true)]).
Proof.
  exact (missing_exit_code_raises (rt := scripted) (ad := staging_adapter)
           (demo_processor true (Some "abc123")) (VDict []) None 0%nat
           (demo_world [inr accepted]) "abc123" demo_made
           eq_refl eq_refl (VDict []) demo_staged eq_refl
           accepted [] eq_refl eq_refl (VDict [])
           (@World scripted demo_staged []
              [EMkdir demo_dir; EHttp (demo_submit true)])
           eq_refl (KeyError "job_info") eq_refl).
Defined.

Lemma failure_report_needs_its_fields_witness :
  @execute scripted staging_adapter (demo_processor true (Some "abc123"))
    (VDict []) None 0
    (demo_world [inr (Response 200 (Some silent_failure_info))])
  = (Raise (KeyError "std_err"),
     @World scripted demo_staged []
       [EMkdir demo_dir; EHttp (demo_submit true)]).
Proof.
  destruct (failure_report_needs_its_fields (rt := scripted) (ad := staging_adapter)
              (demo_processor true (Some "abc123")) (VDict []) None 0%nat
              (demo_world [inr (Response 200 (Some silent_failure_info))])
              "abc123" demo_made eq_refl eq_refl (VDict []) demo_staged
              eq_refl (Response 200 (Some silent_failure_info)) []
              eq_refl eq_refl silent_failure_info
              (@World scripted demo_staged []
                 [EMkdir demo_dir; EHttp (demo_submit true)])
              eq_refl (VInt 1) eq_refl eq_refl) as [_ H].
  exact (H (VStr "abc123") (KeyError "std_err") eq_refl eq_refl).
Defined.

Lemma output_error_propagates_witness :
  @execute scripted half_adapter (demo_processor true (Some "abc123"))
    (VDict []) None 0 (demo_world [inr succeeded])
  = (Raise NotImplementedError,
     @World scripted demo_made []
       [EMkdir demo_dir; EHttp (demo_submit true)]).
Proof.
  exact (output_error_propagates (rt := scripted) (ad := half_adapter)
           (demo_processor true (Some "abc123")) (VDict []) None 0%nat
           (demo_world [inr succeeded]) "abc123" demo_made
           eq_refl eq_refl (VDict []) demo_made eq_refl
           succeeded [] eq_refl eq_refl (demo_job_info (VBool true) 0 "")
           (@World scripted demo_made []
              [EMkdir demo_dir; EHttp (demo_submit true)])
           eq_refl (VInt 0) NotImplementedError demo_made
           eq_refl eq_refl eq_refl).
Defined.

Lemma undecodable_body_raises_witness :
  @execute scripted staging_adapter (demo_processor true (Some "abc123"))
    (VDict []) None 0 (demo_world [inr (Response 200 None)])
  = (Raise JSONDecodeError,
     @World scripted demo_staged []
       [EMkdir demo_dir; EHttp (demo_submit true)]).
Proof.
  apply (undecodable_body_raises (rt := scripted) (ad := staging_adapter)
           (demo_processor true (Some "abc123")) (VDict []) None 0%nat
           (demo_world [inr (Response 200 None)]) "abc123" demo_made
           (VDict []) demo_staged (Response 200 None) []);
    reflexivity.
Defined.

Lemma example_is_accepted :
  ∃ params,
    (@conduit_prepare_input plain_texts (conduit_request (VDict example_components))
       demo_dir example_outputs demo_made).1 = inr params.
Proof. eexists. vm_compute. reflexivity. Qed.

Lemma conduit_accepts_exactly_witness :
  outputs_ok example_outputs ∧
  ∃ d, getitem2 (conduit_request (VDict example_components))
         "components" "value" = inr (VDict d) ∧
       components_ok d.
Proof.
  apply (proj1 (conduit_accepts_exactly (tx := plain_texts)
                  (conduit_request (VDict example_components)) demo_dir
                  example_outputs demo_made)).
  exact example_is_accepted.
Defined.

Lemma conduit_parameters_witness :
  ∃ ps,
    (@conduit_prepare_input plain_texts
       (conduit_request (VDict example_components)) demo_dir example_outputs
       demo_made).1 = inr (VDict ps) ∧
    dict_get ps "-p" = dict_get example_components "p" ∧
    dict_get ps "-f" = dict_get example_components "f".
Proof.
  destruct (@conduit_prepare_input plain_texts
              (conduit_request (VDict example_components)) demo_dir
              example_outputs demo_made) as [[e|params] f'] eqn:E.
  { exfalso. destruct example_is_accepted as [p Hp]. by rewrite E in Hp. }
  destruct (conduit_parameters (tx := plain_texts)
              (conduit_request (VDict example_components)) demo_dir
              example_outputs demo_made params f' E)
    as (_ & d & ps & Ed & -> & Hall & Hf & _).
  injection Ed as <-. exists ps. split; [done|]. split.
  - exact (Hall "p" _ eq_refl).
  - exact Hf.
Defined.

Lemma conduit_skips_na2o_and_h2o_witness :
  ∃ params',
    (@conduit_prepare_input plain_texts
       (conduit_request
          (VDict (retouch (λ _, f_five) example_components)))
       demo_dir example_outputs demo_made).1 = inr params'.
Proof.
  apply (conduit_skips_na2o_and_h2o (tx := plain_texts)
           (conduit_request (VDict example_components))
           (conduit_request
              (VDict (retouch (λ _, f_five) example_components)))
           demo_dir example_outputs demo_made example_components
           (λ _, f_five)).
  - reflexivity.
  - reflexivity.
  - exact example_is_accepted.
Defined.

Lemma conduit_refuses_unknown_outputs_witness :
  @conduit_prepare_input plain_texts
    (conduit_request (VDict example_components)) demo_dir
    (Some (VDict [("grafico_9", VDict [])])) demo_made
  = (inl (pee "Outputs contains unexpected parameters."), demo_made).
Proof.
  apply (conduit_refuses_unknown_outputs (tx := plain_texts)
           (conduit_request (VDict example_components)) demo_dir
           [("grafico_9", VDict [])] "grafico_9" demo_made).
  - by left.
  - cbn. intros H. repeat (destruct H as [H|H]; [discriminate H|]). done.
Defined.

Lemma conduit_components_must_be_iterable_witness :
  @conduit_prepare_input plain_texts (conduit_request (VInt 1)) demo_dir
    None demo_made
  = (inl TypeError, demo_made).
Proof.
  apply (conduit_components_must_be_iterable (tx := plain_texts)
           (conduit_request (VInt 1)) demo_dir None demo_made (VInt 1));
    done.
Defined.

Lemma conduit_refusal_is_clean_witness :
  @execute scripted conduit_input_only (demo_processor true (Some "abc123"))
    (VDict []) None 0 (demo_world [inr succeeded])
  = (Raise (pee "Input not correctly formatted: 'components''."),
     @World scripted demo_files [inr succeeded]
       [EMkdir demo_dir; ERmtree demo_dir]).
Proof.
  apply (conduit_refusal_is_clean (rt := scripted) (tx := plain_texts)
           conduit_input_only (demo_processor true (Some "abc123"))
           (VDict []) None 0%nat (demo_world [inr succeeded]) "abc123"
           demo_made).
  - reflexivity.
  - reflexivity.
  - reflexivity.
  - apply demo_dir_free.
  - reflexivity.
Defined.

Lemma solwcad_is_not_executable_witness :
  @execute scripted solwcad_adapter (demo_processor true (Some "abc123"))
    (VDict []) None 0 (demo_world [inr succeeded])
  = (Raise TypeError,
     @World scripted demo_files [inr succeeded]
       [EMkdir demo_dir; ERmtree demo_dir]).
Proof.
  apply (solwcad_is_not_executable (rt := scripted)
           (demo_processor true (Some "abc123")) (VDict []) None 0%nat
           (demo_world [inr succeeded]) "abc123" demo_made).
  - reflexivity.
  - reflexivity.
  - apply demo_dir_free.
Defined.

Lemma solwcad_new_is_not_executable_witness :
  ∃ e,
    @execute scripted solwcad_new_input_only
      (demo_processor true (Some "abc123"))
      (VDict [("elaboration_type", VDict [("value", VInt 0)]);
              ("sw.data", VList [])])
      None 0 (demo_world [inr succeeded])
    = (Raise e,
       @World scripted demo_files [inr succeeded]
         [EMkdir demo_dir; ERmtree demo_dir])
    ∧ (e = name_error ∨ ∃ msg, e = pee msg).
Proof.
  apply (solwcad_new_is_not_executable (rt := scripted) (tx := plain_texts)
           solwcad_new_input_only (demo_processor true (Some "abc123"))
           _ None 0%nat (demo_world [inr succeeded]) "abc123" demo_made).
  - reflexivity.
  - reflexivity.
  - reflexivity.
  - apply demo_dir_free.
Defined.

Lemma init_needs_a_directory_witness :
  @init scripted demo_host
    (demo_config VNone (VStr "http://executor/")) (demo_world [])
  = (Raise (ProcessorGenericError (PyVal (VStr undefined_dir))),
     demo_world []).
Proof.
  apply (init_needs_a_directory (rt := scripted) (hs := demo_host)
           (demo_config VNone (VStr "http://executor/")) (demo_world [])
           (VStr "http://executor/"));
    reflexivity.
Defined.

Lemma init_accepts_an_existing_root_witness :
  @init scripted demo_host
    (demo_config (VStr "/srv/jobs") (VStr "http://executor/"))
    (demo_world [])
  = (Return (Attributes ["srv"; "jobs"] (VStr "http://executor/") (VInt 3)
               (VBool false)),
     @World scripted demo_files [] [EMkdir ["srv"; "jobs"]]).
Proof.
  apply (init_accepts_an_existing_root (rt := scripted) (hs := demo_host)
           (demo_config (VStr "/srv/jobs") (VStr "http://executor/"))
           (demo_world []) "/srv/jobs" (VStr "http://executor/") Dir);
    try reflexivity.
  discriminate.
Defined.

Lemma init_makes_the_root_before_the_url_check_witness :
  @init scripted demo_host (demo_config (VStr "/srv/work") VNone)
    (demo_world [])
  = (Raise (ProcessorGenericError (PyVal (VStr undefined_url))),
     @World scripted (<[["srv"; "work"] := Dir]> demo_files) []
       [EMkdir ["srv"; "work"]])
  ∧ <[["srv"; "work"] := Dir]> demo_files !! ["srv"; "work"] = Some Dir.
Proof.
  apply (init_makes_the_root_before_the_url_check
           (rt := scripted) (hs := demo_host)
           (demo_config (VStr "/srv/work") VNone) (demo_world [])
           "/srv/work" (<[["srv"; "work"] := Dir]> demo_files));
    reflexivity.
Defined.
